(** * ICABAR: the integration stage and the configuration validator

    A shallow embedding of

    - [src/icabar/models/integration.py]: class [IntegrationModule]
      ([__init__], [train], [integrate]);
    - [src/icabar_framework/icabar/utils/config.py]: [get_default_config]
      and [validate_config];
    - [src/icabar_framework/icabar/main.py]: class [ICABARFramework]
      ([__init__], [predict]);
    - [src/icabar_framework/scripts/research_validation.py]:
      [calculate_precision_recall], [calculate_diversity],
      [calculate_novelty].

    Conventions of the embedding.

    - Item identifiers are strings.
    - A Python [dict] is an insertion-ordered association list whose keys are
      pairwise distinct ([PyDict]); assigning to a key that is already present
      overwrites its value and keeps its position, as in CPython.
    - The iteration order of a Python [set] of strings is not fixed by the
      language (it follows the per-process string hashes), so [integrate] takes
      it from a [SetOrder]: any duplicate-free enumeration of the union.
    - [sorted] is the interpreter's, not the repository's.  It is stable, and
      it orders its input whenever [<] is consistent on the keys it is given;
      on keys that [<] does not order (a NaN among floats) it returns some
      rearrangement that depends on the algorithm.  [integrate] takes it from
      a [Sorter]: any function with this contract.
    - Exceptions are values of [exn]; a method is a function in the monad [M]
      that threads the objects it can reach (the module [self] and the two list
      arguments) and either returns or raises.
    - Float arithmetic is an interface ([Arith]) with two instances: IEEE
      binary64 ([Binary64], Rocq's primitive floats: what CPython computes) and
      exact rationals ([Exact], the idealisation in which order properties of
      scaled scores are stated).
    - [print] writes to standard output only and is not modelled. *)

From Stdlib Require Import List String Bool Arith Lia ZArith QArith Qabs Lqa.
From Stdlib Require Import Permutation Sorted Floats.
Import ListNotations.

Close Scope Q_scope.
Local Open Scope string_scope.
Local Open Scope list_scope.

(** * The model *)

(** ** Exceptions and results *)

Inductive exn : Type :=
| RuntimeError (msg : string)
| ValueError (msg : string)
| KeyError (key : string)
| TypeError (msg : string)
| AttributeError (attr : string).

Inductive result (A : Type) : Type :=
| Ok (a : A)
| Raise (e : exn).

Arguments Ok {A} a.
Arguments Raise {A} e.

(** ** Float arithmetic as an interface *)

Class Arith (F : Type) : Type := {
  of_Z : Z -> F;            (* int -> float conversion *)
  fadd : F -> F -> F;
  fsub : F -> F -> F;
  fmul : F -> F -> F;
  fdiv : F -> F -> F;       (* true division *)
  fabs : F -> F;
  fltb : F -> F -> bool     (* [<] *)
}.

(** A decimal literal [n / d]: binary64 division is correctly rounded, so for
    exactly representable [n] and [d] this is the float the literal denotes. *)
Definition dec {F} `{Arith F} (n d : Z) : F := fdiv (of_Z n) (of_Z d).

(** Python's [a > b] is [b < a]. *)
Definition fgtb {F} `{Arith F} (a b : F) : bool := fltb b a.

(** ** Python dictionaries: insertion-ordered, keys distinct *)

Definition Item : Type := string.

Module PyDict.

Definition t (V : Type) : Type := list (Item * V).

Definition empty {V} : t V := [].

(** [d[k]] as a lookup; [None] stands for [KeyError]. *)
Fixpoint lookup {V} (d : t V) (k : Item) : option V :=
  match d with
  | [] => None
  | (k', v) :: d' => if String.eqb k k' then Some v else lookup d' k
  end.

(** [d[k] = v]: overwrite in place when [k] is present, append otherwise. *)
Fixpoint setitem {V} (d : t V) (k : Item) (v : V) : t V :=
  match d with
  | [] => [(k, v)]
  | (k', v') :: d' =>
      if String.eqb k k' then (k', v) :: d' else (k', v') :: setitem d' k v
  end.

(** [d.get(k, default)]. *)
Definition get {V} (d : t V) (k : Item) (default : V) : V :=
  match lookup d k with
  | Some v => v
  | None => default
  end.

(** [d.keys()], in insertion order. *)
Definition keys {V} (d : t V) : list Item := map fst d.

End PyDict.

(** [d[k]] in a context that can raise. *)
Definition getitem {V} (d : PyDict.t V) (k : Item) : result V :=
  match PyDict.lookup d k with
  | Some v => Ok v
  | None => Raise (KeyError k)
  end.

(** [enumerate(l)], counting from [start]. *)
Fixpoint enumerate_from {A} (start : nat) (l : list A) : list (nat * A) :=
  match l with
  | [] => []
  | x :: l' => (start, x) :: enumerate_from (S start) l'
  end.

Definition enumerate {A} (l : list A) : list (nat * A) := enumerate_from 0 l.

(** ** Iteration order of a set union *)

(** [set(us) | set(cs)] iterated: some enumeration, without repetition, of the
    items of either list. *)
Record SetOrder : Type := {
  set_union_iter : list Item -> list Item -> list Item;
  set_union_NoDup : forall us cs, NoDup (set_union_iter us cs);
  set_union_In : forall us cs x, In x (set_union_iter us cs) <-> In x us \/ In x cs
}.

(** The distinct items of a list in order of first appearance. *)
Definition first_seen (l : list Item) : list Item :=
  rev (nodup string_dec (rev l)).

(** ** [sorted(xs, key=k, reverse=True)] *)

(** The stable descending arrangement, by straight insertion: what a stable
    sort returns where [<] orders the keys. *)

Section StableSort.
Context {A K : Type} (ltb : K -> K -> bool) (key : A -> K).

(** [x] stood before every element of [l]: it moves right only past strictly
    larger keys, so equal keys keep their original order. *)
Fixpoint insert_desc (x : A) (l : list A) : list A :=
  match l with
  | [] => [x]
  | y :: l' => if ltb (key x) (key y) then y :: insert_desc x l' else x :: y :: l'
  end.

(** [l] sorted by descending key, elements with equal keys in the order they
    have in [l]. *)
Definition sorted_desc (l : list A) : list A := fold_right insert_desc [] l.

End StableSort.

(** [<] orders the keys [ks]: restricted to them it is a strict weak order.
    Float keys are ordered unless a NaN stands among keys that differ. *)
Definition consistent {K : Type} (ltb : K -> K -> bool) (ks : list K) : Prop :=
  forall a b c, In a ks -> In b ks -> In c ks ->
    (ltb a b = true -> ltb b a = false) /\
    (ltb a b = false -> ltb b c = false -> ltb a c = false).

(** The same, as a test that can be run. *)
Definition consistentb {K : Type} (ltb : K -> K -> bool) (ks : list K) : bool :=
  forallb (fun a =>
    forallb (fun b =>
      implb (ltb a b) (negb (ltb b a)) &&
      forallb (fun c =>
        implb (negb (ltb a b) && negb (ltb b c)) (negb (ltb a c))) ks) ks) ks.

(** [sorted(xs, key=k, reverse=True)] as the interpreter provides it: a
    rearrangement of [xs]; when [<] orders the keys, the stable descending
    arrangement, which is then the only one a stable sort can return.  What it
    returns otherwise is left open. *)
Record Sorter : Type := {
  sorted_rev : forall {A K : Type}, (K -> K -> bool) -> (A -> K) -> list A -> list A;
  sorted_rev_perm :
    forall (A K : Type) (ltb : K -> K -> bool) (key : A -> K) (l : list A),
      Permutation (sorted_rev ltb key l) l;
  sorted_rev_consistent :
    forall (A K : Type) (ltb : K -> K -> bool) (key : A -> K) (l : list A),
      consistent ltb (map key l) ->
      sorted_rev ltb key l = sorted_desc ltb key l
}.

(** ** The integration module *)

Section Integration.
Context {F : Type} {AF : Arith F}.

(** The [config] dict handed to [IntegrationModule]: a key may be absent. *)
Record IntegrationConfig : Type := {
  ensemble_weights : option (list F);
  confidence_threshold : option F;
  diversity_factor : option F;
  novelty_factor : option F
}.

(** The attributes of an [IntegrationModule] object; the three weights do not
    exist before [train] assigns them. *)
Record IntegrationModule : Type := {
  config : IntegrationConfig;
  trained : bool;
  user_analytics_weight : option F;
  context_engine_weight : option F;
  integration_weight : option F
}.

(** The objects a call of [integrate] can reach: [self] and its two list
    arguments (Python passes both lists by reference). *)
Record Objects : Type := {
  self : IntegrationModule;
  user_predictions : list Item;
  context_predictions : list Item
}.

Definition M (A : Type) : Type := Objects -> result A * Objects.

Definition ret {A} (a : A) : M A := fun o => (Ok a, o).

Definition raise {A} (e : exn) : M A := fun o => (Raise e, o).

Definition bind {A B} (m : M A) (k : A -> M B) : M B :=
  fun o =>
    match m o with
    | (Ok a, o') => k a o'
    | (Raise e, o') => (Raise e, o')
    end.

Definition read {A} (f : Objects -> A) : M A := fun o => (Ok (f o), o).

Definition write_self (f : IntegrationModule -> IntegrationModule) : M unit :=
  fun o => (Ok tt, {| self := f (self o);
                      user_predictions := user_predictions o;
                      context_predictions := context_predictions o |}).

Definition lift {A} (r : result A) : M A := fun o => (r, o).

(** Reading an attribute that may not have been assigned yet. *)
Definition attr {A} (name : string) (f : IntegrationModule -> option A) : M A :=
  fun o =>
    match f (self o) with
    | Some a => (Ok a, o)
    | None => (Raise (AttributeError name), o)
    end.

(** [for x in xs: acc = body x acc]. *)
Fixpoint for_each {A B} (xs : list A) (body : A -> B -> M B) (acc : B) : M B :=
  match xs with
  | [] => ret acc
  | x :: xs' => bind (body x acc) (for_each xs' body)
  end.

End Integration.

Arguments IntegrationConfig F : clear implicits.
Arguments IntegrationModule F : clear implicits.
Arguments Objects F : clear implicits.
Arguments M F A : clear implicits.

Declare Scope py_scope.
Delimit Scope py_scope with py.
Notation "x <- m ;; k" := (bind m (fun x => k))
  (at level 100, m at next level, right associativity) : py_scope.
Notation "m ;;; k" := (bind m (fun _ => k))
  (at level 100, right associativity) : py_scope.

(** [pd.Timestamp]: nanoseconds since the epoch. *)
Definition Timestamp : Type := Z.

Section Methods.
Context {F : Type} {AF : Arith F}.
Local Open Scope py_scope.

(** [IntegrationModule.__init__(self, config)]. *)
Definition __init__ (cfg : IntegrationConfig F) : IntegrationModule F :=
  {| config := cfg;
     trained := false;
     user_analytics_weight := None;
     context_engine_weight := None;
     integration_weight := None |}.

Definition set_weights (a b c : F) (s : IntegrationModule F) : IntegrationModule F :=
  {| config := config s;
     trained := trained s;
     user_analytics_weight := Some a;
     context_engine_weight := Some b;
     integration_weight := Some c |}.

Definition set_trained (b : bool) (s : IntegrationModule F) : IntegrationModule F :=
  {| config := config s;
     trained := b;
     user_analytics_weight := user_analytics_weight s;
     context_engine_weight := context_engine_weight s;
     integration_weight := integration_weight s |}.

(** [IntegrationModule.train(self, user_analytics, context_engine)]: unpacks
    [self.config['ensemble_weights']] into the three weights, then sets
    [self.trained]. *)
Definition train {Obj : Type} (user_analytics context_engine : Obj) : M F unit :=
  cfg <- read (fun o => config (self o)) ;;
  weights <- match ensemble_weights cfg with
             | Some ws => ret ws
             | None => raise (KeyError "ensemble_weights")
             end ;;
  match weights with
  | [a; b; c] =>
      write_self (set_weights a b c) ;;;
      write_self (set_trained true)
  | [] => raise (ValueError "not enough values to unpack (expected 3, got 0)")
  | [_] => raise (ValueError "not enough values to unpack (expected 3, got 1)")
  | [_; _] => raise (ValueError "not enough values to unpack (expected 3, got 2)")
  | _ => raise (ValueError "too many values to unpack (expected 3)")
  end.

(** [{item: 1 / (i + 1) for i, item in enumerate(predictions)}]. *)
Definition rank_scores (predictions : list Item) : PyDict.t F :=
  fold_left
    (fun d '(i, item) =>
       PyDict.setitem d item (fdiv (of_Z 1) (of_Z (Z.of_nat i + 1))))
    (enumerate predictions) PyDict.empty.

(** [config.get(key, 0.0)]. *)
Definition config_get (field : option F) : F :=
  match field with
  | Some v => v
  | None => of_Z 0
  end.

(** The keys computed by [sorted] before it sorts: [key(item)] for each item,
    here [combined_scores[item]]. *)
Definition decorate (d : PyDict.t F) (items : list Item) : M F (list (Item * F)) :=
  for_each items
    (fun item acc => v <- lift (getitem d item) ;; ret (acc ++ [(item, v)]))
    [].

(** Step 2 of [integrate], the loop [for item in all_items: ...] that fills
    [combined_scores]. *)
Definition combine_loop (user_scores context_scores : PyDict.t F)
           (all_items : list Item) : M F (PyDict.t F) :=
  for_each all_items
    (fun item combined_scores =>
       let score_u := PyDict.get user_scores item (of_Z 0) in
       let score_c := PyDict.get context_scores item (of_Z 0) in
       w_u <- attr "user_analytics_weight" user_analytics_weight ;;
       w_c <- attr "context_engine_weight" context_engine_weight ;;
       ret (PyDict.setitem combined_scores item
              (fadd (fmul w_u score_u) (fmul w_c score_c))))
    PyDict.empty.

(** Step 3 of [integrate], the loop
    [for item in combined_scores: combined_scores[item] *= (1 + novelty_factor)]. *)
Definition novelty_loop (novelty : F) (combined_scores : PyDict.t F)
  : M F (PyDict.t F) :=
  for_each (PyDict.keys combined_scores)
    (fun item combined_scores =>
       v <- lift (getitem combined_scores item) ;;
       ret (PyDict.setitem combined_scores item
              (fmul v (fadd (of_Z 1) novelty))))
    combined_scores.

(** Step 4 of [integrate]:
    [sorted(combined_scores.keys(), key=lambda item: combined_scores[item],
    reverse=True)]. *)
Definition sorted_keys (srt : Sorter) (combined_scores : PyDict.t F)
  : M F (list Item) :=
  decorated <- decorate combined_scores (PyDict.keys combined_scores) ;;
  ret (map fst (sorted_rev srt fltb snd decorated)).

(** [IntegrationModule.integrate(self, user_predictions, context_predictions,
    user_id, timestamp)]; the two lists are read from [Objects]. *)
Definition integrate (O : SetOrder) (srt : Sorter)
           (user_id : string) (timestamp : Timestamp)
  : M F (list Item) :=
  is_trained <- read (fun o => trained (self o)) ;;
  if negb is_trained
  then raise (RuntimeError "The IntegrationModule has not been trained yet.")
  else
    (* 1. prediction lists to scores *)
    ups <- read user_predictions ;;
    let user_scores := rank_scores ups in
    cps <- read context_predictions ;;
    let context_scores := rank_scores cps in
    (* 2. weighted ensemble *)
    let all_items := set_union_iter O ups cps in
    combined_scores <- combine_loop user_scores context_scores all_items ;;
    (* 3. diversity and novelty placeholder *)
    cfg <- read (fun o => config (self o)) ;;
    let diversity := config_get (diversity_factor cfg) in
    let novelty := config_get (novelty_factor cfg) in
    combined_scores <- novelty_loop novelty combined_scores ;;
    (* 4. sort by final score, descending *)
    final_recommendations <- sorted_keys srt combined_scores ;;
    (* 5. confidence placeholder *)
    let confidence := config_get (confidence_threshold cfg) in
    ret final_recommendations.

(** The stages of [integrate] as functions of their inputs. *)

(** Step 2: the combined score of one item. *)
Definition combined_score (w_u w_c : F) (ups cps : list Item) (item : Item) : F :=
  fadd (fmul w_u (PyDict.get (rank_scores ups) item (of_Z 0)))
       (fmul w_c (PyDict.get (rank_scores cps) item (of_Z 0))).

(** Step 2: the combined score map, in the iteration order of the universe. *)
Definition combined_scores (O : SetOrder) (w_u w_c : F) (ups cps : list Item)
  : PyDict.t F :=
  map (fun item => (item, combined_score w_u w_c ups cps item))
      (set_union_iter O ups cps).

(** Step 3: every entry times [1 + novelty_factor]. *)
Definition novelty_adjust (novelty : F) (d : PyDict.t F) : PyDict.t F :=
  map (fun kv => (fst kv, fmul (snd kv) (fadd (of_Z 1) novelty))) d.

(** Step 4: the keys as [sorted] arranges them by score. *)
Definition ranking (srt : Sorter) (d : PyDict.t F) : list Item :=
  map fst (sorted_rev srt fltb snd d).

(** A module as [train] leaves it, with weights possibly reassigned later. *)
Definition trained_with (s : IntegrationModule F) (w_u w_c : F) : Prop :=
  trained s = true /\
  user_analytics_weight s = Some w_u /\
  context_engine_weight s = Some w_c.

End Methods.

(** ** The two arithmetics *)

Module Exact.

#[global] Instance arith : Arith Q := {|
  of_Z := inject_Z;
  fadd := Qplus;
  fsub := Qminus;
  fmul := Qmult;
  fdiv := Qdiv;
  fabs := Qabs;
  fltb := fun a b => negb (Qle_bool b a)
|}.

End Exact.

Module Binary64.

(** [float(z)]: the nearest binary64 number, ties to even; exact for
    [|z| <= 2^53].  The integers the program converts are literals, list
    positions and lengths; beyond the range of binary64, where Python raises
    [OverflowError], this is an infinity. *)
Definition float_of_Z (z : Z) : float :=
  SF2Prim (SpecFloat.binary_normalize prec emax z 0 false).

#[global] Instance arith : Arith float := {|
  of_Z := float_of_Z;
  fadd := PrimFloat.add;
  fsub := PrimFloat.sub;
  fmul := PrimFloat.mul;
  fdiv := PrimFloat.div;
  fabs := PrimFloat.abs;
  fltb := PrimFloat.ltb
|}.

End Binary64.

(** Two iteration orders for the universe: first appearance, and its reverse. *)
Program Definition first_seen_order : SetOrder :=
  {| set_union_iter := fun us cs => first_seen (us ++ cs) |}.
Next Obligation.
  unfold first_seen. apply NoDup_rev, NoDup_nodup.
Qed.
Next Obligation.
  unfold first_seen. rewrite <- in_rev, nodup_In, <- in_rev, in_app_iff. tauto.
Qed.

Program Definition reverse_first_seen_order : SetOrder :=
  {| set_union_iter := fun us cs => nodup string_dec (rev (us ++ cs)) |}.
Next Obligation.
  apply NoDup_nodup.
Qed.
Next Obligation.
  rewrite nodup_In, <- in_rev, in_app_iff. tauto.
Qed.

(** A sorter: straight insertion, whatever [<] does on the keys. *)
Program Definition insertion_sorter : Sorter :=
  {| sorted_rev := fun A K ltb key l => sorted_desc ltb key l |}.
Next Obligation.
  induction l as [|x l IH]; simpl; [apply perm_nil|].
  apply perm_trans with (x :: sorted_desc ltb key l); [|apply perm_skip, IH].
  generalize (sorted_desc ltb key l). intros s.
  induction s as [|y s IHs]; simpl; [apply Permutation_refl|].
  destruct (ltb (key x) (key y)).
  - eapply perm_trans; [apply perm_skip, IHs | apply perm_swap].
  - apply Permutation_refl.
Qed.

(** ** Configuration values and [validate_config] *)

Set Warnings "-register-all,-inexact-float".

(** The Python values a configuration holds. *)
Inductive pyval (F : Type) : Type :=
| PyNone
| PyBool (b : bool)
| PyInt (z : Z)
| PyFloat (x : F)
| PyStr (s : string)
| PyList (l : list (pyval F))
| PyMap (d : list (string * pyval F)).

Arguments PyNone {F}.
Arguments PyBool {F} b.
Arguments PyInt {F} z.
Arguments PyFloat {F} x.
Arguments PyStr {F} s.
Arguments PyList {F} l.
Arguments PyMap {F} d.

Section Config.
Context {F : Type} {AF : Arith F}.

(** First binding of a key in a dict literal's entries. *)
Fixpoint entry (d : list (string * pyval F)) (k : string) : option (pyval F) :=
  match d with
  | [] => None
  | (k', v) :: d' => if String.eqb k k' then Some v else entry d' k
  end.

(** [k in config]. *)
Definition contains (d : list (string * pyval F)) (k : string) : bool :=
  match entry d k with
  | Some _ => true
  | None => false
  end.

(** [v[k]] for a string key [k]; the messages are CPython 3.11's. *)
Definition subscript (v : pyval F) (k : string) : result (pyval F) :=
  match v with
  | PyMap d =>
      match entry d k with
      | Some x => Ok x
      | None => Raise (KeyError k)
      end
  | PyNone => Raise (TypeError "'NoneType' object is not subscriptable")
  | PyBool _ => Raise (TypeError "'bool' object is not subscriptable")
  | PyInt _ => Raise (TypeError "'int' object is not subscriptable")
  | PyFloat _ => Raise (TypeError "'float' object is not subscriptable")
  | PyStr _ => Raise (TypeError "string indices must be integers, not 'str'")
  | PyList _ => Raise (TypeError "list indices must be integers or slices, not str")
  end.

(** [isinstance(v, int)]; [bool] is a subclass of [int]. *)
Definition is_int (v : pyval F) : bool :=
  match v with
  | PyInt _ | PyBool _ => true
  | _ => false
  end.

(** The integer an [int] instance compares as. *)
Definition int_value (v : pyval F) : Z :=
  match v with
  | PyInt z => z
  | PyBool true => 1
  | _ => 0
  end.

(** [isinstance(v, float)]. *)
Definition is_float (v : pyval F) : bool :=
  match v with
  | PyFloat _ => true
  | _ => false
  end.

Definition float_value (v : pyval F) : F :=
  match v with
  | PyFloat x => x
  | _ => of_Z 0
  end.

(** [sum(weights)] for a list of floats: [0 + w0 + w1 + ...], added left to
    right, each addition rounded.  This is [sum] up to CPython 3.11, the
    versions the repository declares; from 3.12 on [sum] compensates the
    rounding of float additions and can return another float. *)
Definition sum (ws : list (pyval F)) : F :=
  fold_left (fun acc w => fadd acc (float_value w)) ws (of_Z 0).

Definition and_then {A B} (r : result A) (k : A -> result B) : result B :=
  match r with
  | Ok a => k a
  | Raise e => Raise e
  end.

(** [get_default_config()]. *)
Definition get_default_config : list (string * pyval F) :=
  [ ("user_analytics",
      PyMap [ ("n_clusters", PyInt 5);
              ("temporal_window", PyInt 30);
              ("min_interactions", PyInt 3) ]);
    ("context_engine",
      PyMap [ ("similarity_threshold", PyFloat (dec 7 10));
              ("temporal_weight", PyFloat (dec 3 10));
              ("spatial_weight", PyFloat (dec 2 10));
              ("social_weight", PyFloat (dec 3 10));
              ("activity_weight", PyFloat (dec 2 10)) ]);
    ("integration",
      PyMap [ ("ensemble_weights",
                PyList [PyFloat (dec 4 10); PyFloat (dec 3 10); PyFloat (dec 3 10)]);
              ("confidence_threshold", PyFloat (dec 6 10));
              ("diversity_factor", PyFloat (dec 2 10));
              ("novelty_factor", PyFloat (dec 1 10)) ]) ].

Definition msg_keys : string :=
  "Configuration must contain 'user_analytics', 'context_engine', and 'integration' keys.".
Definition msg_clusters : string := "'n_clusters' must be a positive integer.".
Definition msg_shape : string := "'ensemble_weights' must be a list of three floats.".
Definition msg_sum : string := "'ensemble_weights' must sum to 1.0.".

(** [validate_config(config)]: returns [None] or raises. *)
Definition validate_config (config : list (string * pyval F)) : result unit :=
  if negb (contains config "user_analytics")
     || negb (contains config "context_engine")
     || negb (contains config "integration")
  then Raise (ValueError msg_keys)
  else
    and_then (subscript (PyMap config) "user_analytics") (fun ua =>
    and_then (subscript ua "n_clusters") (fun n_clusters =>
    if negb (is_int n_clusters) || (int_value n_clusters <=? 0)%Z
    then Raise (ValueError msg_clusters)
    else
      and_then (subscript (PyMap config) "integration") (fun integ =>
      and_then (subscript integ "ensemble_weights") (fun weights =>
      match weights with
      | PyList ws =>
          if negb (List.length ws =? 3)%nat || negb (forallb is_float ws)
          then Raise (ValueError msg_shape)
          else
            if fgtb (fabs (fsub (sum ws) (of_Z 1))) (dec 1 1000000)
            then Raise (ValueError msg_sum)
            else Ok tt
      | _ => Raise (ValueError msg_shape)
      end)))).

(** A configuration with the integration section's [ensemble_weights] set to
    [ws] and everything else as in [get_default_config]. *)
Definition default_with_weights (ws : pyval F) : list (string * pyval F) :=
  [ ("user_analytics",
      PyMap [ ("n_clusters", PyInt 5);
              ("temporal_window", PyInt 30);
              ("min_interactions", PyInt 3) ]);
    ("context_engine",
      PyMap [ ("similarity_threshold", PyFloat (dec 7 10));
              ("temporal_weight", PyFloat (dec 3 10));
              ("spatial_weight", PyFloat (dec 2 10));
              ("social_weight", PyFloat (dec 3 10));
              ("activity_weight", PyFloat (dec 2 10)) ]);
    ("integration",
      PyMap [ ("ensemble_weights", ws);
              ("confidence_threshold", PyFloat (dec 6 10));
              ("diversity_factor", PyFloat (dec 2 10));
              ("novelty_factor", PyFloat (dec 1 10)) ]) ].

(** The part of a configuration that [validate_config] looks at before the
    weights: the three sections are present and [n_clusters] is a positive
    [int]; [weights] is the value under [integration / ensemble_weights]. *)
Definition reaches_weights (config : list (string * pyval F)) (weights : pyval F)
  : Prop :=
  contains config "user_analytics" = true /\
  contains config "context_engine" = true /\
  (exists ua n,
      entry config "user_analytics" = Some ua /\
      subscript ua "n_clusters" = Ok n /\
      is_int n = true /\ (0 < int_value n)%Z) /\
  (exists integ,
      entry config "integration" = Some integ /\
      subscript integ "ensemble_weights" = Ok weights).

End Config.

(** ** Notions the properties are stated with *)

(** 0-based position of the last occurrence of [x], counting from [start]. *)
Fixpoint last_index_from (start : nat) (x : Item) (l : list Item) : option nat :=
  match l with
  | [] => None
  | y :: l' =>
      match last_index_from (S start) x l' with
      | Some r => Some r
      | None => if String.eqb x y then Some start else None
      end
  end.

Definition last_index (x : Item) (l : list Item) : option nat :=
  last_index_from 0 x l.

(** 0-based position of the first occurrence of [x], counting from [start]. *)
Fixpoint first_index_from (start : nat) (x : Item) (l : list Item) : option nat :=
  match l with
  | [] => None
  | y :: l' => if String.eqb x y then Some start else first_index_from (S start) x l'
  end.

Definition first_index (x : Item) (l : list Item) : option nat :=
  first_index_from 0 x l.

(** The reciprocal-rank score of position [r]: [1 / (r + 1)]. *)
Definition reciprocal_rank {F} `{Arith F} (r : nat) : F :=
  fdiv (of_Z 1) (of_Z (Z.of_nat r + 1)).

(** What the sort needs of [<] to order its output: a strict weak order. *)
Class StrictWeak {K : Type} (ltb : K -> K -> bool) : Prop := {
  ltb_asym : forall a b, ltb a b = true -> ltb b a = false;
  ltb_negtrans : forall a b c, ltb a b = false -> ltb b c = false -> ltb a c = false
}.

(** No element is followed, anywhere later, by one with a strictly larger key. *)
Definition descending {A K : Type} (ltb : K -> K -> bool) (key : A -> K)
           (l : list A) : Prop :=
  StronglySorted (fun a b => ltb (key a) (key b) = false) l.

(** A computation that leaves every reachable object as it found it. *)
Definition read_only {F A : Type} (m : M F A) : Prop := forall o, snd (m o) = o.

(** ** Scenarios *)

Section Scenarios.
Context {F : Type} {AF : Arith F}.

(** [get_default_config()['integration']], as the module receives it. *)
Definition default_integration_config : IntegrationConfig F :=
  {| ensemble_weights := Some [dec 4 10; dec 3 10; dec 3 10];
     confidence_threshold := Some (dec 6 10);
     diversity_factor := Some (dec 2 10);
     novelty_factor := Some (dec 1 10) |}.

(** A configuration with other ensemble weights. *)
Definition with_weights (ws : list F) (cfg : IntegrationConfig F) : IntegrationConfig F :=
  {| ensemble_weights := Some ws;
     confidence_threshold := confidence_threshold cfg;
     diversity_factor := diversity_factor cfg;
     novelty_factor := novelty_factor cfg |}.

(** A configuration with another [novelty_factor] entry ([None]: no entry). *)
Definition with_novelty (nf : option F) (cfg : IntegrationConfig F) : IntegrationConfig F :=
  {| ensemble_weights := ensemble_weights cfg;
     confidence_threshold := confidence_threshold cfg;
     diversity_factor := diversity_factor cfg;
     novelty_factor := nf |}.

(** The same module object with its [config] replaced. *)
Definition set_config (cfg : IntegrationConfig F) (s : IntegrationModule F)
  : IntegrationModule F :=
  {| config := cfg;
     trained := trained s;
     user_analytics_weight := user_analytics_weight s;
     context_engine_weight := context_engine_weight s;
     integration_weight := integration_weight s |}.

(** The objects of a call [s.integrate(ups, cps, _, _)]. *)
Definition call (s : IntegrationModule F) (ups cps : list Item) : Objects F :=
  {| self := s; user_predictions := ups; context_predictions := cps |}.

(** [m = IntegrationModule(cfg); m.train(None, None)]: the module afterwards
    (the fresh module again if [train] raised). *)
Definition constructed_and_trained (cfg : IntegrationConfig F) : IntegrationModule F :=
  self (snd (train tt tt (call (__init__ cfg) [] []))).

(** The score an item ends with: its combined score times [1 + novelty]. *)
Definition final_score (o : Objects F) (w_u w_c : F) (item : Item) : F :=
  fmul (combined_score w_u w_c (user_predictions o) (context_predictions o) item)
       (fadd (of_Z 1) (config_get (novelty_factor (config (self o))))).

End Scenarios.

(** The final scores of a call are ordered by [<]: no NaN among scores that
    differ.  This is when the result of [sorted] is determined. *)
Definition scores_ordered {F : Type} {AF : Arith F}
           (o : Objects F) (w_u w_c : F) : Prop :=
  consistent fltb
    (map (final_score o w_u w_c) (user_predictions o ++ context_predictions o)).

(** The default configuration with another [novelty_factor], trained. *)
Definition module_with_novelty {F : Type} {AF : Arith F} (nf : F)
  : IntegrationModule F :=
  constructed_and_trained (with_novelty (Some nf) default_integration_config).


(** The call of the repository's weighted-ensemble test: default configuration,
    [train], weights then set by hand to 0.6, 0.4 and 0.0, lists
    [['A','B','C']] and [['B','D','A']]; in binary64. *)
Definition tested_module : IntegrationModule float :=
  set_weights 0.6%float 0.4%float 0%float
    (constructed_and_trained default_integration_config).

Definition tested_call : Objects float :=
  call tested_module ["A"; "B"; "C"] ["B"; "D"; "A"].

(** The module of the weighted-ensemble test in exact arithmetic, with a
    chosen [novelty_factor]. *)
Definition ensemble_module (nf : Q) : IntegrationModule Q :=
  set_weights 0.6%Q 0.4%Q 0%Q (module_with_novelty nf).

(** * Properties *)

(** ** Dictionaries *)

Section DictFacts.
Context {V : Type}.
Implicit Types (d : PyDict.t V) (k x : Item) (v : V).

Lemma lookup_setitem d k v x :
  PyDict.lookup (PyDict.setitem d k v) x
  = if String.eqb x k then Some v else PyDict.lookup d x.
Proof.
  induction d as [|[k' v'] d IH]; simpl.
  - reflexivity.
  - destruct (String.eqb_spec k k') as [->|Hk]; simpl.
    + destruct (String.eqb x k'); reflexivity.
    + destruct (String.eqb_spec x k') as [->|Hx].
      * destruct (String.eqb_spec k' k); [congruence | reflexivity].
      * exact IH.
Qed.

Lemma lookup_app_fresh d1 d2 k :
  ~ In k (PyDict.keys d1) -> PyDict.lookup (d1 ++ d2) k = PyDict.lookup d2 k.
Proof.
  induction d1 as [|[k' v'] d1 IH]; simpl; intros Hk.
  - reflexivity.
  - destruct (String.eqb_spec k k') as [->|_]; [tauto | apply IH; tauto].
Qed.

Lemma setitem_app_fresh d1 d2 k v :
  ~ In k (PyDict.keys d1) ->
  PyDict.setitem (d1 ++ d2) k v = d1 ++ PyDict.setitem d2 k v.
Proof.
  induction d1 as [|[k' v'] d1 IH]; simpl; intros Hk.
  - reflexivity.
  - destruct (String.eqb_spec k k') as [->|_]; [tauto | rewrite IH; tauto].
Qed.

Lemma setitem_fresh d k v :
  ~ In k (PyDict.keys d) -> PyDict.setitem d k v = d ++ [(k, v)].
Proof.
  intros Hk. rewrite <- (app_nil_r d) at 1. now rewrite setitem_app_fresh.
Qed.

Lemma lookup_In_keys d k : In k (PyDict.keys d) <-> exists v, PyDict.lookup d k = Some v.
Proof.
  induction d as [|[k' v'] d IH]; simpl.
  - split; [tauto | intros [v Hv]; discriminate].
  - destruct (String.eqb_spec k k') as [->|Hk].
    + split; eauto.
    + rewrite <- IH. split; [intros [E|H]; [congruence | exact H] | auto].
Qed.

End DictFacts.

(** ** Methods that only read *)

Section ReadOnly.
Context {F : Type} {AF : Arith F}.

Lemma read_only_ret {A} (a : A) : read_only (F:=F) (ret a).
Proof. intros o. reflexivity. Qed.

Lemma read_only_raise {A} (e : exn) : read_only (@raise F A e).
Proof. intros o. reflexivity. Qed.

Lemma read_only_read {A} (f : Objects F -> A) : read_only (F:=F) (read f).
Proof. intros o. reflexivity. Qed.

Lemma read_only_lift {A} (r : result A) : read_only (@lift F A r).
Proof. intros o. reflexivity. Qed.

Lemma read_only_attr {A} name (f : IntegrationModule F -> option A) :
  read_only (attr name f).
Proof. intros o. unfold attr. destruct (f (self o)); reflexivity. Qed.

Lemma read_only_bind {A B} (m : M F A) (k : A -> M F B) :
  read_only m -> (forall a, read_only (k a)) -> read_only (bind m k).
Proof.
  intros Hm Hk o. unfold bind. specialize (Hm o).
  destruct (m o) as [[a|e] o']; simpl in Hm; subst o'.
  - apply Hk.
  - reflexivity.
Qed.

Lemma read_only_for_each {A B} (xs : list A) (body : A -> B -> M F B) :
  (forall x acc, read_only (body x acc)) ->
  forall acc, read_only (for_each xs body acc).
Proof.
  intros Hbody. induction xs as [|x xs IH]; intros acc; simpl.
  - apply read_only_ret.
  - apply read_only_bind; [apply Hbody | exact IH].
Qed.

End ReadOnly.

Create HintDb readonly.

#[local] Hint Resolve read_only_ret read_only_raise read_only_read
  read_only_lift read_only_attr : readonly.

Ltac read_only_step :=
  lazymatch goal with
  | |- read_only (bind _ _) => apply read_only_bind; [| intros ?]
  | |- read_only (for_each _ _ _) => apply read_only_for_each; intros ? ?
  | |- read_only (combine_loop _ _ _) => unfold combine_loop
  | |- read_only (novelty_loop _ _) => unfold novelty_loop
  | |- read_only (sorted_keys _ _) => unfold sorted_keys
  | |- read_only (decorate _ _) => unfold decorate
  | |- read_only (if ?b then _ else _) => destruct b
  | |- read_only (let _ := _ in _) => cbv zeta
  | |- _ => solve [auto with readonly]
  end.

Section IntegrateFacts.
Context {F : Type} {AF : Arith F}.

Lemma integrate_read_only (O : SetOrder) (srt : Sorter) user_id timestamp :
  read_only (integrate (F:=F) O srt user_id timestamp).
Proof.
  unfold integrate. repeat read_only_step.
Qed.

(** *** The loops of [integrate] in closed form *)

Lemma for_each_setitem_fresh (o : Objects F) (g : Item -> F)
      (body : Item -> PyDict.t F -> M F (PyDict.t F)) :
  (forall item d, body item d o = (Ok (PyDict.setitem d item (g item)), o)) ->
  forall items acc,
    NoDup items ->
    (forall x, In x items -> ~ In x (PyDict.keys acc)) ->
    for_each items body acc o
    = (Ok (acc ++ map (fun item => (item, g item)) items), o).
Proof.
  intros Hbody. induction items as [|x items IH]; intros acc Hnd Hfresh; simpl.
  - unfold ret. now rewrite app_nil_r.
  - unfold bind. rewrite Hbody.
    inversion Hnd as [|? ? Hx Hnd']; subst.
    rewrite setitem_fresh by (apply Hfresh; now left).
    rewrite IH; trivial.
    + now rewrite <- app_assoc.
    + intros y Hy. unfold PyDict.keys. rewrite map_app, in_app_iff. simpl.
      intros [Hin|[->|[]]].
      * apply (Hfresh y); [now right | exact Hin].
      * contradiction.
Qed.

Lemma for_each_update (o : Objects F) (h : F -> F)
      (body : Item -> PyDict.t F -> M F (PyDict.t F)) :
  (forall item d,
      body item d o
      = bind (lift (getitem d item))
             (fun v => ret (PyDict.setitem d item (h v))) o) ->
  forall d2 d1 : PyDict.t F,
    NoDup (PyDict.keys (d1 ++ d2)) ->
    for_each (PyDict.keys d2) body (d1 ++ d2) o
    = (Ok (d1 ++ map (fun kv => (fst kv, h (snd kv))) d2), o).
Proof.
  intros Hbody. induction d2 as [|[k v] d2 IH]; intros d1 Hnd; simpl.
  - reflexivity.
  - unfold PyDict.keys in Hnd. rewrite map_app in Hnd. simpl in Hnd.
    pose proof (NoDup_remove_2 _ _ _ Hnd) as Hk.
    assert (Hk1 : ~ In k (PyDict.keys d1)).
    { intros Hin. apply Hk. apply in_or_app. now left. }
    unfold bind at 1. rewrite Hbody.
    unfold bind, lift, getitem, ret.
    rewrite lookup_app_fresh by exact Hk1. simpl. rewrite String.eqb_refl.
    rewrite setitem_app_fresh by exact Hk1. simpl. rewrite String.eqb_refl.
    specialize (IH (d1 ++ [(k, h v)])).
    rewrite <- !app_assoc in IH. simpl in IH. apply IH.
    unfold PyDict.keys. rewrite map_app. exact Hnd.
Qed.

Lemma decorate_keys (o : Objects F) :
  forall (d2 d1 : PyDict.t F) (acc : list (Item * F)),
    NoDup (PyDict.keys (d1 ++ d2)) ->
    for_each (PyDict.keys d2)
      (fun item acc =>
         bind (lift (getitem (d1 ++ d2) item))
              (fun v => ret (acc ++ [(item, v)])))
      acc o
    = (Ok (acc ++ d2), o).
Proof.
  induction d2 as [|[k v] d2 IH]; intros d1 acc Hnd; simpl.
  - unfold ret. now rewrite app_nil_r.
  - unfold PyDict.keys in Hnd. rewrite map_app in Hnd. simpl in Hnd.
    pose proof (NoDup_remove_2 _ _ _ Hnd) as Hk.
    assert (Hk1 : ~ In k (PyDict.keys d1)).
    { intros Hin. apply Hk. apply in_or_app. now left. }
    unfold bind at 1. unfold bind at 1. unfold lift, getitem, ret.
    rewrite lookup_app_fresh by exact Hk1. simpl. rewrite String.eqb_refl.
    specialize (IH (d1 ++ [(k, v)]) (acc ++ [(k, v)])).
    rewrite <- !app_assoc in IH. simpl in IH. apply IH.
    unfold PyDict.keys. rewrite map_app. exact Hnd.
Qed.

Lemma keys_combined_scores (O : SetOrder) w_u w_c ups cps :
  PyDict.keys (combined_scores (F:=F) O w_u w_c ups cps) = set_union_iter O ups cps.
Proof.
  unfold combined_scores, PyDict.keys. rewrite map_map. simpl. apply map_id.
Qed.

Lemma keys_novelty_adjust novelty (d : PyDict.t F) :
  PyDict.keys (novelty_adjust novelty d) = PyDict.keys d.
Proof.
  unfold novelty_adjust, PyDict.keys. rewrite map_map. reflexivity.
Qed.

Lemma combine_loop_trained (O : SetOrder) (o : Objects F) w_u w_c ups cps :
  trained_with (self o) w_u w_c ->
  combine_loop (rank_scores ups) (rank_scores cps) (set_union_iter O ups cps) o
  = (Ok (combined_scores O w_u w_c ups cps), o).
Proof.
  intros (Ht & Hu & Hc). unfold combine_loop.
  rewrite (for_each_setitem_fresh o (combined_score w_u w_c ups cps)).
  - reflexivity.
  - intros item acc. unfold bind, attr, ret. rewrite Hu, Hc. reflexivity.
  - apply set_union_NoDup.
  - intros x _ [].
Qed.

Lemma novelty_loop_run (o : Objects F) novelty (d : PyDict.t F) :
  NoDup (PyDict.keys d) ->
  novelty_loop novelty d o = (Ok (novelty_adjust novelty d), o).
Proof.
  intros Hnd. unfold novelty_loop.
  apply (for_each_update o (fun v => fmul v (fadd (of_Z 1) novelty))
           _ (fun _ _ => eq_refl) d [] Hnd).
Qed.

Lemma sorted_keys_run (srt : Sorter) (o : Objects F) (d : PyDict.t F) :
  NoDup (PyDict.keys d) ->
  sorted_keys srt d o = (Ok (ranking srt d), o).
Proof.
  intros Hnd. unfold sorted_keys, decorate, bind at 1.
  pose proof (decorate_keys o d [] [] Hnd) as Hdec.
  simpl app in Hdec. rewrite Hdec. reflexivity.
Qed.

(** On a trained module [integrate] returns, changes nothing, and its result
    is the composition of the three stages. *)
Lemma integrate_trained (O : SetOrder) (srt : Sorter) user_id timestamp
      (o : Objects F) w_u w_c :
  trained_with (self o) w_u w_c ->
  integrate O srt user_id timestamp o
  = (Ok (ranking srt
           (novelty_adjust (config_get (novelty_factor (config (self o))))
              (combined_scores O w_u w_c (user_predictions o) (context_predictions o)))),
     o).
Proof.
  intros Ht. pose proof Ht as (Htr & _).
  set (d := combined_scores O w_u w_c (user_predictions o) (context_predictions o)).
  assert (Hnd : NoDup (PyDict.keys d)).
  { unfold d. rewrite keys_combined_scores. apply set_union_NoDup. }
  unfold integrate.
  unfold bind at 1. unfold read at 1. rewrite Htr. cbn [negb]. cbv beta iota.
  unfold bind at 1. unfold read at 1.
  unfold bind at 1. unfold read at 1. cbv beta iota zeta.
  unfold bind at 1. rewrite (combine_loop_trained O o w_u w_c _ _ Ht). fold d.
  unfold bind at 1. unfold read at 1. cbv beta iota.
  unfold bind at 1. rewrite (novelty_loop_run o _ d Hnd).
  unfold bind at 1. rewrite sorted_keys_run.
  - reflexivity.
  - now rewrite keys_novelty_adjust.
Qed.

End IntegrateFacts.

(** ** Positions in a ranked list *)

Section RankFacts.
Context {F : Type} {AF : Arith F}.

Lemma last_index_from_In start x l :
  In x l -> exists r, last_index_from start x l = Some r.
Proof.
  revert start. induction l as [|y l IH]; intros start; simpl.
  - intros [].
  - intros [->|Hin].
    + destruct (last_index_from (S start) x l); eauto.
      rewrite String.eqb_refl. eauto.
    + destruct (IH (S start) Hin) as [r ->]. eauto.
Qed.

Lemma last_index_from_None start x l :
  last_index_from start x l = None -> ~ In x l.
Proof.
  intros Hn Hin. destruct (last_index_from_In start x l Hin) as [r Hr]. congruence.
Qed.

Lemma last_index_from_ge start x l r :
  last_index_from start x l = Some r -> start <= r.
Proof.
  revert start. induction l as [|y l IH]; intros start; simpl.
  - discriminate.
  - destruct (last_index_from (S start) x l) as [r'|] eqn:E.
    + intros [= ->]. apply IH in E. lia.
    + destruct (String.eqb x y); [intros [= ->]; lia | discriminate].
Qed.

(** [last_index] finds an occurrence after which there is no other. *)
Lemma last_index_from_spec start x l r :
  last_index_from start x l = Some r ->
  nth_error l (r - start) = Some x /\
  forall j, r - start < j -> nth_error l j <> Some x.
Proof.
  revert start. induction l as [|y l IH]; intros start; simpl.
  - discriminate.
  - destruct (last_index_from (S start) x l) as [r'|] eqn:E.
    + intros [= ->]. pose proof (last_index_from_ge _ _ _ _ E) as Hge.
      destruct (IH _ E) as [Hnth Hlast].
      replace (r - start) with (S (r - S start)) by lia. simpl. split.
      * exact Hnth.
      * intros [|j] Hj; [lia|]. simpl. apply Hlast. lia.
    + destruct (String.eqb_spec x y) as [->|_]; [|discriminate].
      intros [= ->]. rewrite Nat.sub_diag. simpl. split; [reflexivity|].
      intros [|j] Hj; [lia|]. simpl. intros Hnth.
      apply (last_index_from_None _ _ _ E). eapply nth_error_In, Hnth.
Qed.

Lemma rank_scores_from start (l : list Item) (d : PyDict.t F) x :
  PyDict.lookup
    (fold_left
       (fun d '(i, item) => PyDict.setitem d item (reciprocal_rank i))
       (enumerate_from start l) d) x
  = match last_index_from start x l with
    | Some r => Some (reciprocal_rank r)
    | None => PyDict.lookup d x
    end.
Proof.
  revert start d. induction l as [|y l IH]; intros start d; simpl.
  - reflexivity.
  - rewrite IH. destruct (last_index_from (S start) x l); [reflexivity|].
    rewrite lookup_setitem. destruct (String.eqb x y); reflexivity.
Qed.

(** The score map built by the dict comprehension: an item's entry is the
    reciprocal rank of its last occurrence. *)
Lemma rank_scores_lookup (l : list Item) x :
  PyDict.lookup (rank_scores (F:=F) l) x
  = option_map reciprocal_rank (last_index x l).
Proof.
  unfold rank_scores, enumerate, last_index.
  change (fun (d : PyDict.t F) '(i, item) =>
            PyDict.setitem d item (fdiv (of_Z 1) (of_Z (Z.of_nat i + 1))))
    with (fun (d : PyDict.t F) '(i, item) =>
            PyDict.setitem d item (reciprocal_rank i)).
  rewrite rank_scores_from. destruct (last_index_from 0 x l); reflexivity.
Qed.

End RankFacts.

(** ** The stable descending sort *)

Section SortFacts.
Context {A K : Type}.

Lemma insert_desc_perm (ltb : K -> K -> bool) (key : A -> K) x l :
  Permutation (insert_desc ltb key x l) (x :: l).
Proof.
  induction l as [|y l IH]; simpl.
  - apply Permutation_refl.
  - destruct (ltb (key x) (key y)).
    + eapply perm_trans; [apply perm_skip, IH | apply perm_swap].
    + apply Permutation_refl.
Qed.

Lemma sorted_desc_perm (ltb : K -> K -> bool) (key : A -> K) l :
  Permutation (sorted_desc ltb key l) l.
Proof.
  induction l as [|x l IH]; simpl.
  - apply perm_nil.
  - eapply perm_trans; [apply insert_desc_perm | apply perm_skip, IH].
Qed.



(** Sorting pairs by their second component and projecting, or sorting the
    items by the score they are paired with: the same list. *)
Lemma sorted_desc_decorated (ltb : K -> K -> bool) (g : A -> K) l :
  map fst (sorted_desc ltb snd (map (fun x => (x, g x)) l))
  = sorted_desc ltb g l.
Proof.
  assert (Hins : forall x s,
             map fst (insert_desc ltb snd (x, g x) (map (fun x => (x, g x)) s))
             = insert_desc ltb g x s).
  { intros x s. induction s as [|y s IH]; simpl.
    - reflexivity.
    - destruct (ltb (g x) (g y)); simpl.
      + now rewrite IH.
      + now rewrite map_map, map_id. }
  assert (Hmap : sorted_desc ltb snd (map (fun x => (x, g x)) l)
                 = map (fun x => (x, g x)) (sorted_desc ltb g l)).
  { induction l as [|x l IH]; simpl.
    - reflexivity.
    - rewrite IH. generalize (sorted_desc ltb g l). intros s.
      induction s as [|y s IHs]; simpl.
      + reflexivity.
      + destruct (ltb (g x) (g y)); simpl; [now rewrite IHs | reflexivity]. }
  rewrite Hmap, map_map. simpl. apply map_id.
Qed.

Lemma consistent_incl (ltb : K -> K -> bool) (ks ks' : list K) :
  (forall a, In a ks' -> In a ks) -> consistent ltb ks -> consistent ltb ks'.
Proof.
  intros Hincl Hc a b c Ha Hb Hc'. apply Hc; apply Hincl; assumption.
Qed.

Lemma strict_weak_consistent (ltb : K -> K -> bool) `{!StrictWeak ltb}
      (ks : list K) :
  consistent ltb ks.
Proof.
  intros a b c _ _ _. split; [apply ltb_asym | apply ltb_negtrans].
Qed.

Lemma consistentb_spec (ltb : K -> K -> bool) (ks : list K) :
  consistentb ltb ks = true <-> consistent ltb ks.
Proof.
  unfold consistentb, consistent. rewrite forallb_forall. split.
  - intros H a b c Ha Hb Hc.
    specialize (H a Ha). rewrite forallb_forall in H. specialize (H b Hb).
    apply andb_true_iff in H as [Hasym Hneg].
    rewrite forallb_forall in Hneg. specialize (Hneg c Hc). split.
    + intros E. rewrite E in Hasym. simpl in Hasym.
      now apply negb_true_iff in Hasym.
    + intros E1 E2. rewrite E1, E2 in Hneg. simpl in Hneg.
      now apply negb_true_iff in Hneg.
  - intros H a Ha. rewrite forallb_forall. intros b Hb.
    apply andb_true_iff. split.
    + destruct (ltb a b) eqn:E; [|reflexivity]. simpl.
      apply negb_true_iff. now apply (H a b a Ha Hb Ha).
    + rewrite forallb_forall. intros c Hc.
      destruct (ltb a b) eqn:E1; [reflexivity|].
      destruct (ltb b c) eqn:E2; [reflexivity|]. simpl.
      apply negb_true_iff. now apply (H a b c Ha Hb Hc).
Qed.

Lemma insert_desc_descending_on (ltb : K -> K -> bool) (key : A -> K) x l :
  consistent ltb (map key (x :: l)) ->
  descending ltb key l -> descending ltb key (insert_desc ltb key x l).
Proof.
  unfold descending. intros Hc Hs. revert Hc.
  induction Hs as [|y l Hl IH Hy]; intros Hc; simpl.
  - constructor; constructor.
  - assert (Hkx : In (key x) (map key (x :: y :: l))) by now left.
    assert (Hky : In (key y) (map key (x :: y :: l))) by (right; now left).
    destruct (ltb (key x) (key y)) eqn:E.
    + constructor.
      * apply IH. eapply consistent_incl; [|exact Hc].
        simpl. intros a [<-|Ha]; auto.
      * eapply Permutation_Forall; [apply Permutation_sym, insert_desc_perm|].
        constructor; [|exact Hy].
        now apply (proj1 (Hc (key x) (key y) (key x) Hkx Hky Hkx)).
    + constructor; [now constructor|].
      constructor; [exact E|].
      rewrite Forall_forall in Hy |- *. intros z Hz.
      assert (Hkz : In (key z) (map key (x :: y :: l))).
      { right. right. now apply in_map. }
      apply (proj2 (Hc (key x) (key y) (key z) Hkx Hky Hkz) E).
      now apply Hy.
Qed.

(** Where [<] orders the keys, the stable sort leaves no element followed by
    one with a strictly larger key. *)
Lemma sorted_desc_descending_on (ltb : K -> K -> bool) (key : A -> K) l :
  consistent ltb (map key l) -> descending ltb key (sorted_desc ltb key l).
Proof.
  induction l as [|x l IH]; simpl; intros Hc.
  - constructor.
  - apply insert_desc_descending_on.
    + eapply consistent_incl; [|exact Hc].
      simpl. intros a [<-|Ha]; [now left|right].
      apply in_map_iff in Ha as (z & <- & Hz). apply in_map.
      eapply Permutation_in; [apply sorted_desc_perm | exact Hz].
    + apply IH. eapply consistent_incl; [|exact Hc]. simpl. auto.
Qed.

Lemma sorted_desc_descending (ltb : K -> K -> bool) `{!StrictWeak ltb}
      (key : A -> K) l :
  descending ltb key (sorted_desc ltb key l).
Proof.
  apply sorted_desc_descending_on. now apply strict_weak_consistent.
Qed.

(** Two descending arrangements of the same elements coincide when no two
    distinct elements tie. *)
Lemma descending_unique (ltb : K -> K -> bool) (key : A -> K) (l1 l2 : list A) :
  Permutation l1 l2 ->
  NoDup l1 ->
  (forall x y, In x l1 -> In y l1 -> x <> y ->
               ltb (key x) (key y) = true \/ ltb (key y) (key x) = true) ->
  descending ltb key l1 -> descending ltb key l2 ->
  l1 = l2.
Proof.
  unfold descending. revert l2.
  induction l1 as [|x l1 IH]; intros l2 Hperm Hnd Hties Hs1 Hs2.
  - apply Permutation_nil in Hperm. now subst.
  - destruct l2 as [|y l2].
    { apply Permutation_sym, Permutation_nil in Hperm. discriminate. }
    inversion Hs1 as [|? ? Hs1' Hx]; subst.
    inversion Hs2 as [|? ? Hs2' Hy]; subst.
    inversion Hnd as [|? ? Hxl Hnd']; subst.
    assert (Hxy : x = y).
    { assert (Hyin : In y (x :: l1)).
      { eapply Permutation_in; [apply Permutation_sym, Hperm | now left]. }
      assert (Hxin : In x (y :: l2)).
      { eapply Permutation_in; [apply Hperm | now left]. }
      destruct Hyin as [E|Hyin]; [exact E|].
      destruct Hxin as [E|Hxin]; [now symmetry|].
      rewrite Forall_forall in Hx, Hy.
      specialize (Hx _ Hyin). specialize (Hy _ Hxin). simpl in Hx, Hy.
      assert (Hne : x <> y) by (intros ->; contradiction).
      destruct (Hties x y) as [E|E]; [now left | now right | exact Hne | |];
        congruence. }
    subst y. f_equal. apply IH; trivial.
    + eapply Permutation_cons_inv, Hperm.
    + intros a b Ha Hb. apply Hties; now right.
Qed.

(** In a descending list, an element whose key is strictly above every
    other key stands first. *)
Lemma descending_head (eq_dec : forall a b : A, {a = b} + {a <> b})
      (ltb : K -> K -> bool) (key : A -> K) (l : list A) x :
  descending ltb key l ->
  In x l ->
  (forall y, In y l -> y <> x -> ltb (key y) (key x) = true) ->
  exists rest, l = x :: rest.
Proof.
  intros Hs Hin Htop. destruct l as [|h t]; [destruct Hin|].
  destruct (eq_dec h x) as [->|Hne]; [now exists t|].
  destruct Hin as [E|Hin]; [contradiction|].
  inversion Hs as [|? ? _ Hh]; subst.
  rewrite Forall_forall in Hh. specialize (Hh x Hin). simpl in Hh.
  rewrite (Htop h (or_introl eq_refl) Hne) in Hh. discriminate.
Qed.

End SortFacts.

(** *** The order laws in exact arithmetic *)

Lemma Q_fltb_lt (a b : Q) : fltb a b = true <-> (a < b)%Q.
Proof.
  simpl. rewrite negb_true_iff. destruct (Qle_bool b a) eqn:E.
  - apply Qle_bool_iff in E. split; [discriminate|].
    intros Hlt. exfalso. apply (Qlt_not_le _ _ Hlt E).
  - split; [intros _|reflexivity]. apply Qnot_le_lt. intros H.
    apply Qle_bool_iff in H. congruence.
Qed.

Lemma Q_fltb_ge (a b : Q) : fltb a b = false <-> (b <= a)%Q.
Proof.
  simpl. rewrite negb_false_iff. apply Qle_bool_iff.
Qed.

#[global] Instance Q_strict_weak : StrictWeak (fltb (F:=Q)).
Proof.
  split.
  - intros a b Hab. apply Q_fltb_ge. apply Qlt_le_weak. now apply Q_fltb_lt.
  - intros a b c Hab Hbc. apply Q_fltb_ge. apply Q_fltb_ge in Hab, Hbc.
    eapply Qle_trans; eassumption.
Qed.



(** *** The order laws in binary64 *)

(** [<] on binary64 numbers compares sign, then exponent, then mantissa
    ([SFcompare]); the order of two finite numbers of one sign is the
    lexicographic order of exponent and mantissa. *)
Definition lex (e1 : Z) (m1 : positive) (e2 : Z) (m2 : positive) : comparison :=
  match Z.compare e1 e2 with
  | Lt => Lt
  | Gt => Gt
  | Eq => Pos.compare_cont Eq m1 m2
  end.

Lemma lex_Lt e1 m1 e2 m2 :
  lex e1 m1 e2 m2 = Lt <-> (e1 < e2)%Z \/ (e1 = e2 /\ (m1 < m2)%positive).
Proof.
  unfold lex. change (Pos.compare_cont Eq m1 m2) with (Pos.compare m1 m2).
  destruct (Z.compare_spec e1 e2); destruct (Pos.compare_spec m1 m2);
    split; intros Hl; try discriminate; try reflexivity; try lia.
Qed.

Lemma lex_Gt e1 m1 e2 m2 :
  lex e1 m1 e2 m2 = Gt <-> (e2 < e1)%Z \/ (e1 = e2 /\ (m2 < m1)%positive).
Proof.
  unfold lex. change (Pos.compare_cont Eq m1 m2) with (Pos.compare m1 m2).
  destruct (Z.compare_spec e1 e2); destruct (Pos.compare_spec m1 m2);
    split; intros Hl; try discriminate; try reflexivity; try lia.
Qed.

Lemma SFltb_finite_pos m1 e1 m2 e2 :
  SFltb (S754_finite false m1 e1) (S754_finite false m2 e2) = true
  <-> lex e1 m1 e2 m2 = Lt.
Proof.
  unfold SFltb, SFcompare. fold (lex e1 m1 e2 m2).
  destruct (lex e1 m1 e2 m2); split; congruence.
Qed.

Lemma SFltb_finite_neg m1 e1 m2 e2 :
  SFltb (S754_finite true m1 e1) (S754_finite true m2 e2) = true
  <-> lex e1 m1 e2 m2 = Gt.
Proof.
  unfold SFltb, SFcompare, lex.
  change (Pos.compare_cont Eq m1 m2) with (Pos.compare m1 m2).
  destruct (Z.compare e1 e2); [|split; congruence|split; congruence].
  destruct (Pos.compare m1 m2); simpl; split; congruence.
Qed.

Ltac finite_order :=
  repeat match goal with
  | H : SFltb (S754_finite true _ _) (S754_finite true _ _) = true |- _ =>
      apply SFltb_finite_neg, lex_Gt in H
  | H : SFltb (S754_finite false _ _) (S754_finite false _ _) = true |- _ =>
      apply SFltb_finite_pos, lex_Lt in H
  | H : SFltb (S754_finite true ?m ?e) (S754_finite true ?m' ?e') = false |- _ =>
      assert (~ ((e' < e)%Z \/ (e = e' /\ (m' < m)%positive)))
        by (rewrite <- lex_Gt, <- SFltb_finite_neg; congruence);
      clear H
  | H : SFltb (S754_finite false ?m ?e) (S754_finite false ?m' ?e') = false |- _ =>
      assert (~ ((e < e')%Z \/ (e = e' /\ (m < m')%positive)))
        by (rewrite <- lex_Lt, <- SFltb_finite_pos; congruence);
      clear H
  end.

Lemma SFltb_asym (p q : spec_float) : SFltb p q = true -> SFltb q p = false.
Proof.
  destruct p as [sp|sp| |sp mp ep], q as [sq|sq| |sq mq eq];
    try destruct sp; try destruct sq;
    try (unfold SFltb, SFcompare; congruence).
  all: intros H;
    match goal with |- ?lhs = false => destruct lhs eqn:E; [exfalso|reflexivity] end.
  all: finite_order; lia.
Qed.

(** Numbers that are not below a number, which is not below a third, are not
    below the third: unless the one in the middle is NaN. *)
Lemma SFltb_negtrans (p q r : spec_float) :
  q <> S754_nan ->
  SFltb p q = false -> SFltb q r = false -> SFltb p r = false.
Proof.
  intros Hq Hpq Hqr.
  destruct (SFltb p r) eqn:Hpr; [exfalso|reflexivity].
  destruct p as [sp|sp| |sp mp ep], q as [sq|sq| |sq mq eq], r as [sr|sr| |sr mr er];
    try congruence;
    try destruct sp; try destruct sq; try destruct sr;
    try (unfold SFltb, SFcompare in *; congruence).
  all: finite_order; lia.
Qed.

Lemma is_nan_spec (x : float) : is_nan x = false -> Prim2SF x <> S754_nan.
Proof.
  unfold is_nan. rewrite negb_false_iff, eqb_spec. intros H E. rewrite E in H.
  discriminate H.
Qed.

(** Binary64 keys without a NaN are ordered by [<]. *)
Lemma binary64_consistent (ks : list float) :
  (forall k, In k ks -> is_nan k = false) -> consistent (fltb (F:=float)) ks.
Proof.
  intros Hnan a b c _ Hb _. simpl. rewrite !ltb_spec. split.
  - apply SFltb_asym.
  - apply SFltb_negtrans. apply is_nan_spec. now apply Hnan.
Qed.

(** A call none of whose final scores is NaN has ordered scores. *)
Lemma binary64_scores_ordered (o : Objects float) (w_u w_c : float) :
  (forall item, In item (user_predictions o) \/ In item (context_predictions o) ->
                is_nan (final_score o w_u w_c item) = false) ->
  scores_ordered o w_u w_c.
Proof.
  intros Hnan. apply binary64_consistent. intros k Hk.
  apply in_map_iff in Hk as (item & <- & Hitem).
  apply Hnan. now apply in_app_or.
Qed.

(** ** The weighted ensemble over the union *)

Section EnsembleFacts.
Context {F : Type} {AF : Arith F}.

Lemma lookup_map_In (g : Item -> F) (items : list Item) x :
  In x items ->
  PyDict.lookup (map (fun item => (item, g item)) items) x = Some (g x).
Proof.
  induction items as [|y items IH]; simpl.
  - intros [].
  - destruct (String.eqb_spec x y) as [->|Hne]; [reflexivity|].
    intros [E|Hin]; [congruence | exact (IH Hin)].
Qed.

Lemma rank_score_absent (l : list Item) x (default : F) :
  ~ In x l -> PyDict.get (rank_scores l) x default = default.
Proof.
  intros Hx. unfold PyDict.get. rewrite rank_scores_lookup.
  unfold last_index. destruct (last_index_from 0 x l) as [r|] eqn:E.
  - exfalso. apply Hx. apply last_index_from_spec in E as [Hnth _].
    eapply nth_error_In, Hnth.
  - reflexivity.
Qed.

Lemma rank_score_present (l : list Item) x r (default : F) :
  last_index x l = Some r ->
  PyDict.get (rank_scores l) x default = fdiv (of_Z 1) (of_Z (Z.of_nat r + 1)).
Proof.
  intros Hr. unfold PyDict.get. rewrite rank_scores_lookup, Hr. reflexivity.
Qed.

Lemma ranking_perm (srt : Sorter) (d : PyDict.t F) :
  Permutation (ranking srt d) (PyDict.keys d).
Proof.
  unfold ranking, PyDict.keys. apply Permutation_map, sorted_rev_perm.
Qed.

Lemma ranking_novelty_perm (O : SetOrder) (srt : Sorter) novelty w_u w_c ups cps :
  Permutation
    (ranking srt (novelty_adjust novelty (combined_scores (F:=F) O w_u w_c ups cps)))
    (set_union_iter O ups cps).
Proof.
  eapply perm_trans; [apply ranking_perm|].
  rewrite keys_novelty_adjust, keys_combined_scores. apply Permutation_refl.
Qed.

(** The scores [sorted] is given are the final scores of the universe. *)
Lemma final_scores (O : SetOrder) (o : Objects F) w_u w_c :
  novelty_adjust (config_get (novelty_factor (config (self o))))
    (combined_scores O w_u w_c (user_predictions o) (context_predictions o))
  = map (fun item => (item, final_score o w_u w_c item))
        (set_union_iter O (user_predictions o) (context_predictions o)).
Proof.
  unfold novelty_adjust, combined_scores. rewrite map_map. reflexivity.
Qed.

Lemma scores_ordered_universe (O : SetOrder) (o : Objects F) w_u w_c :
  scores_ordered o w_u w_c ->
  consistent fltb
    (map (final_score o w_u w_c)
         (set_union_iter O (user_predictions o) (context_predictions o))).
Proof.
  apply consistent_incl. intros a Ha.
  apply in_map_iff in Ha as (x & <- & Hx). apply in_map.
  apply in_or_app. now apply (set_union_In O).
Qed.

(** Where the final scores are ordered, the ranking is the stable descending
    sort of the universe by final score, whatever the sorter. *)
Lemma ranking_sorted (O : SetOrder) (srt : Sorter) (o : Objects F) w_u w_c :
  scores_ordered o w_u w_c ->
  ranking srt
    (novelty_adjust (config_get (novelty_factor (config (self o))))
       (combined_scores O w_u w_c (user_predictions o) (context_predictions o)))
  = sorted_desc fltb (final_score o w_u w_c)
      (set_union_iter O (user_predictions o) (context_predictions o)).
Proof.
  intros Hc. rewrite final_scores. unfold ranking.
  rewrite sorted_rev_consistent.
  - apply (sorted_desc_decorated fltb (final_score o w_u w_c)).
  - rewrite map_map. simpl. now apply scores_ordered_universe.
Qed.

(** The result of a trained call whose final scores are ordered, as one sort
    of the universe by final score. *)
Lemma integrate_sorted (O : SetOrder) (srt : Sorter) user_id timestamp
      (o : Objects F) w_u w_c :
  trained_with (self o) w_u w_c ->
  scores_ordered o w_u w_c ->
  fst (integrate O srt user_id timestamp o)
  = Ok (sorted_desc fltb (final_score o w_u w_c)
          (set_union_iter O (user_predictions o) (context_predictions o))).
Proof.
  intros Ht Hc. rewrite (integrate_trained O srt user_id timestamp o w_u w_c Ht).
  simpl. f_equal. now apply ranking_sorted.
Qed.

(** The result of a trained call, whatever the scores: the universe,
    rearranged. *)
Lemma integrate_perm (O : SetOrder) (srt : Sorter) user_id timestamp
      (o : Objects F) w_u w_c :
  trained_with (self o) w_u w_c ->
  exists r,
    integrate O srt user_id timestamp o = (Ok r, o) /\
    Permutation r (set_union_iter O (user_predictions o) (context_predictions o)).
Proof.
  intros Ht. eexists. split.
  - apply (integrate_trained O srt user_id timestamp o w_u w_c Ht).
  - apply ranking_novelty_perm.
Qed.

(** Where the final scores are ordered, every sorter gives what straight
    insertion gives; the test on the scores can be run. *)
Lemma integrate_any_sorter (O : SetOrder) (srt : Sorter) user_id timestamp
      (o : Objects F) w_u w_c :
  trained_with (self o) w_u w_c ->
  consistentb fltb
    (map (final_score o w_u w_c) (user_predictions o ++ context_predictions o))
  = true ->
  integrate O srt user_id timestamp o
  = integrate O insertion_sorter user_id timestamp o.
Proof.
  intros Ht Hc. apply consistentb_spec in Hc.
  rewrite !(integrate_trained O _ user_id timestamp o w_u w_c Ht).
  now rewrite !ranking_sorted.
Qed.

(** With ordered final scores no two of which tie, the result is the one
    arrangement of the items in strictly descending order of final score,
    whatever the iteration order of the universe and the sorter. *)
Lemma integrate_strict_ranking (O : SetOrder) (srt : Sorter) user_id timestamp
      (o : Objects F) w_u w_c (expected : list Item) :
  trained_with (self o) w_u w_c ->
  scores_ordered o w_u w_c ->
  (forall x, In x expected <-> In x (user_predictions o) \/ In x (context_predictions o)) ->
  StronglySorted
    (fun a b => fltb (final_score o w_u w_c b) (final_score o w_u w_c a) = true)
    expected ->
  fst (integrate O srt user_id timestamp o) = Ok expected.
Proof.
  intros Ht Hc Hin Hstrict.
  rewrite (integrate_sorted O srt user_id timestamp o w_u w_c Ht Hc). f_equal.
  set (key := final_score o w_u w_c) in *.
  set (universe := set_union_iter O (user_predictions o) (context_predictions o)).
  assert (Hasym : forall a b, In a expected -> In b expected ->
                    fltb (key a) (key b) = true -> fltb (key b) (key a) = false).
  { intros a b Ha Hb. apply (Hc (key a) (key b) (key a));
      apply in_map, in_or_app, Hin; assumption. }
  assert (Hnd : NoDup expected).
  { clear Hin. induction Hstrict as [|a l Hl IH Ha]; constructor.
    - intros Hal. rewrite Forall_forall in Ha. specialize (Ha a Hal).
      rewrite (Hasym a a) in Ha; [discriminate | now left | now left | exact Ha].
    - apply IH. intros x y Hx Hy. apply Hasym; now right. }
  assert (Hties : forall x y, In x expected -> In y expected -> x <> y ->
                    fltb (key x) (key y) = true \/ fltb (key y) (key x) = true).
  { clear Hin Hasym Hnd. induction Hstrict as [|a l Hl IH Ha].
    - intros x y [].
    - rewrite Forall_forall in Ha.
      intros x y [<-|Hx] [<-|Hy] Hne; auto; contradiction. }
  assert (Hdesc : descending fltb key expected).
  { unfold descending. clear Hin Hnd Hties.
    induction Hstrict as [|a l Hl IH Ha]; constructor.
    - apply IH. intros x y Hx Hy. apply Hasym; now right.
    - rewrite Forall_forall in Ha |- *. intros b Hb.
      apply Hasym; [now right | now left | now apply Ha]. }
  symmetry. apply (descending_unique fltb key); trivial.
  - apply NoDup_Permutation; trivial.
    + eapply Permutation_NoDup; [apply Permutation_sym, sorted_desc_perm|].
      apply set_union_NoDup.
    + intros x. rewrite Hin, <- (set_union_In O). split; apply Permutation_in;
        [apply Permutation_sym, sorted_desc_perm | apply sorted_desc_perm].
  - apply sorted_desc_descending_on. now apply scores_ordered_universe.
Qed.

End EnsembleFacts.

(** A closed call whose final scores are ordered: run it with straight
    insertion. *)
Ltac by_insertion :=
  erewrite integrate_any_sorter;
  [ vm_compute; reflexivity | repeat split | vm_compute; reflexivity ].

(** C1. On a trained module, [integrate] returns; the combined score map its
    ensemble loop builds has, for every item of either list, the entry
    [w_user * score_user.get(item, 0) + w_context * score_context.get(item, 0)]
    (a list holding the item contributes the reciprocal rank [1 / (r + 1)] of
    the item's position [r], its last one if it is repeated; a list that does
    not hold the item contributes the default 0), its keys
    are exactly the items of the two lists, each once; every such item is in
    the returned list, which has no repetition and as many elements as there
    are distinct items in the two lists. *)
Theorem integrate_scores_every_item_of_the_union
    {F : Type} {AF : Arith F} (O : SetOrder) (srt : Sorter) (o : Objects F) (w_u w_c : F)
    (user_id : string) (timestamp : Timestamp) :
  trained_with (self o) w_u w_c ->
  let ups := user_predictions o in
  let cps := context_predictions o in
  let combined := combined_scores O w_u w_c ups cps in
  exists final_recommendations,
    fst (integrate O srt user_id timestamp o) = Ok final_recommendations /\
    final_recommendations
    = ranking srt (novelty_adjust (config_get (novelty_factor (config (self o)))) combined) /\
    combine_loop (rank_scores ups) (rank_scores cps) (set_union_iter O ups cps) o
    = (Ok combined, o) /\
    (forall item, In item ups \/ In item cps ->
       PyDict.lookup combined item
       = Some (fadd (fmul w_u (PyDict.get (rank_scores ups) item (of_Z 0)))
                    (fmul w_c (PyDict.get (rank_scores cps) item (of_Z 0))))) /\
    (forall item r, last_index item ups = Some r ->
       PyDict.get (rank_scores ups) item (of_Z 0)
       = fdiv (of_Z 1) (of_Z (Z.of_nat r + 1))) /\
    (forall item r, last_index item cps = Some r ->
       PyDict.get (rank_scores cps) item (of_Z 0)
       = fdiv (of_Z 1) (of_Z (Z.of_nat r + 1))) /\
    (forall item, ~ In item ups -> PyDict.get (rank_scores ups) item (of_Z 0) = of_Z 0) /\
    (forall item, ~ In item cps -> PyDict.get (rank_scores cps) item (of_Z 0) = of_Z 0) /\
    (forall item, In item (PyDict.keys combined) <-> In item ups \/ In item cps) /\
    NoDup (PyDict.keys combined) /\
    (forall item, In item ups \/ In item cps -> In item final_recommendations) /\
    NoDup final_recommendations /\
    List.length final_recommendations = List.length (nodup string_dec (ups ++ cps)).
Proof.
  intros Ht ups cps combined.
  pose proof (ranking_novelty_perm O srt (config_get (novelty_factor (config (self o))))
                w_u w_c ups cps) as Hperm.
  fold combined in Hperm.
  eexists. split; [|split; [reflexivity|split]].
  { rewrite (integrate_trained O srt user_id timestamp o w_u w_c Ht). reflexivity. }
  { apply combine_loop_trained, Ht. }
  assert (Hkeys : PyDict.keys combined = set_union_iter O ups cps)
    by apply keys_combined_scores.
  repeat split.
  - intros item Hin. unfold combined, combined_scores.
    rewrite (lookup_map_In (combined_score w_u w_c ups cps)).
    + reflexivity.
    + now apply set_union_In.
  - intros item r Hr. now apply rank_score_present.
  - intros item r Hr. now apply rank_score_present.
  - intros item Hin. now apply rank_score_absent.
  - intros item Hin. now apply rank_score_absent.
  - rewrite Hkeys. apply set_union_In.
  - rewrite Hkeys. apply set_union_In.
  - rewrite Hkeys. apply set_union_NoDup.
  - intros item Hin. eapply Permutation_in; [apply Permutation_sym, Hperm|].
    now apply set_union_In.
  - eapply Permutation_NoDup; [apply Permutation_sym, Hperm|].
    apply set_union_NoDup.
  - rewrite (Permutation_length Hperm). apply Permutation_length.
    apply NoDup_Permutation.
    + apply set_union_NoDup.
    + apply NoDup_nodup.
    + intros x. rewrite set_union_In, nodup_In, in_app_iff. reflexivity.
Qed.

(** [train] on a configuration that holds three weights. *)
Lemma train_three_weights {F : Type} {AF : Arith F} (o : Objects F) (a b c : F) :
  ensemble_weights (config (self o)) = Some [a; b; c] ->
  train tt tt o
  = (Ok tt, call (set_trained true (set_weights a b c (self o)))
              (user_predictions o) (context_predictions o)).
Proof.
  intros Hw. unfold train, bind, read. rewrite Hw. reflexivity.
Qed.

Lemma constructed_and_trained_weights {F : Type} {AF : Arith F}
      (cfg : IntegrationConfig F) (a b c : F) :
  ensemble_weights cfg = Some [a; b; c] ->
  trained_with (constructed_and_trained cfg) a b.
Proof.
  intros Hw. unfold constructed_and_trained.
  rewrite (train_three_weights _ a b c) by exact Hw.
  repeat split.
Qed.

Lemma tested_module_trained : trained_with tested_module 0.6%float 0.4%float.
Proof.
  unfold tested_module.
  destruct (constructed_and_trained_weights (F:=float) default_integration_config
              (dec 4 10) (dec 3 10) (dec 3 10) eq_refl) as (Ht & _).
  split; [exact Ht | split; reflexivity].
Qed.

Lemma integrate_scores_every_item_of_the_union_witness :
  exists r,
    fst (integrate first_seen_order insertion_sorter "user1" 0%Z tested_call) = Ok r /\
    In "D" r /\ List.length r = 4.
Proof.
  destruct (integrate_scores_every_item_of_the_union
              first_seen_order insertion_sorter tested_call 0.6%float 0.4%float "user1" 0%Z
              tested_module_trained)
    as (r & Hr & _ & _ & _ & _ & _ & _ & _ & _ & _ & Hin & _ & Hlen).
  exists r. split; [exact Hr|]. split.
  - apply Hin. right. simpl. tauto.
  - exact Hlen.
Defined.

(** ** Duplicates in a ranked list *)

(** C2, as the code has it. For every list and every item that occurs in it,
    the dict comprehension leaves the item with the score [1 / (1 + r)] where
    [r] is the 0-based position of the item's last occurrence: a later
    duplicate overwrites the entry of an earlier one. *)
Theorem rank_scores_last_occurrence_wins
    {F : Type} {AF : Arith F} (predictions : list Item) (item : Item) :
  In item predictions ->
  exists r,
    last_index item predictions = Some r /\
    nth_error predictions r = Some item /\
    (forall j, r < j -> nth_error predictions j <> Some item) /\
    PyDict.lookup (rank_scores (F:=F) predictions) item
    = Some (fdiv (of_Z 1) (of_Z (Z.of_nat r + 1))).
Proof.
  intros Hin.
  destruct (last_index_from_In 0 item predictions Hin) as [r Hr].
  exists r. pose proof (last_index_from_spec _ _ _ _ Hr) as [Hnth Hlast].
  rewrite Nat.sub_0_r in Hnth, Hlast.
  repeat split; trivial.
  rewrite rank_scores_lookup. unfold last_index. rewrite Hr. reflexivity.
Qed.

Lemma rank_scores_last_occurrence_wins_witness :
  exists r,
    last_index "X" ["X"; "Y"; "X"] = Some r /\
    PyDict.lookup (rank_scores (F:=float) ["X"; "Y"; "X"]) "X"
    = Some (fdiv (of_Z 1) (of_Z (Z.of_nat r + 1))).
Proof.
  destruct (rank_scores_last_occurrence_wins (F:=float) ["X"; "Y"; "X"] "X")
    as (r & Hr & _ & _ & Hscore).
  - simpl. tauto.
  - exists r. split; assumption.
Defined.

(** C2, as the specification has it, fails: in [['X','Y','X']] the first
    occurrence of [X] is at rank 0, yet the score map holds for [X] the score
    of rank 2, [1/3], and not [1.0]; in binary64 and in exact arithmetic. *)
Lemma duplicate_item_scored_by_rank_2 :
  first_index "X" ["X"; "Y"; "X"] = Some 0 /\
  PyDict.lookup (rank_scores (F:=float) ["X"; "Y"; "X"]) "X"
  = Some (0.33333333333333331)%float /\
  PrimFloat.eqb 0.33333333333333331 1.0 = false /\
  PyDict.lookup (rank_scores (F:=Q) ["X"; "Y"; "X"]) "X" = Some (1 / (2 + 1))%Q /\
  ~ (1 / (2 + 1) == 1 / (0 + 1))%Q.
Proof.
  split; [reflexivity|].
  split; [vm_compute; reflexivity|].
  split; [vm_compute; reflexivity|].
  split; [reflexivity|].
  intros H. vm_compute in H. discriminate H.
Qed.

(** ** Calls before training, and what a call leaves behind *)

(** C4. On a module whose [trained] flag is still false, as [__init__] leaves
    it, [integrate] raises the untrained [RuntimeError] whatever the lists,
    the user and the time; the module and both lists are as before, and no
    list is returned. *)
Theorem integrate_untrained_raises
    {F : Type} {AF : Arith F} (O : SetOrder) (srt : Sorter) (o : Objects F)
    (user_id : string) (timestamp : Timestamp) :
  trained (self o) = false ->
  integrate O srt user_id timestamp o
  = (Raise (RuntimeError "The IntegrationModule has not been trained yet."), o).
Proof.
  intros Hu. unfold integrate, bind, read. rewrite Hu. reflexivity.
Qed.

Lemma integrate_untrained_raises_witness :
  integrate first_seen_order insertion_sorter "user1" 0%Z
    (call (__init__ (F:=float) default_integration_config) ["item_A"] ["item_B"])
  = (Raise (RuntimeError "The IntegrationModule has not been trained yet."),
     call (__init__ default_integration_config) ["item_A"] ["item_B"]).
Proof.
  apply (integrate_untrained_raises first_seen_order insertion_sorter
           (call (__init__ default_integration_config) ["item_A"] ["item_B"])).
  reflexivity.
Defined.

(** C10. A call of [integrate] that returns leaves the module's [trained]
    flag, its three weights and its [config], and both argument lists, exactly
    as they were. *)
Theorem integrate_changes_nothing
    {F : Type} {AF : Arith F} (O : SetOrder) (srt : Sorter) (o o' : Objects F)
    (user_id : string) (timestamp : Timestamp) (final_recommendations : list Item) :
  integrate O srt user_id timestamp o = (Ok final_recommendations, o') ->
  trained (self o') = trained (self o) /\
  user_analytics_weight (self o') = user_analytics_weight (self o) /\
  context_engine_weight (self o') = context_engine_weight (self o) /\
  integration_weight (self o') = integration_weight (self o) /\
  config (self o') = config (self o) /\
  user_predictions o' = user_predictions o /\
  context_predictions o' = context_predictions o.
Proof.
  intros Hcall.
  pose proof (integrate_read_only O srt user_id timestamp o) as Hro.
  rewrite Hcall in Hro. simpl in Hro. subst o'.
  repeat split.
Qed.

Lemma integrate_changes_nothing_witness :
  exists r o',
    integrate first_seen_order insertion_sorter "user1" 0%Z tested_call = (Ok r, o') /\
    user_predictions o' = ["A"; "B"; "C"] /\
    context_predictions o' = ["B"; "D"; "A"] /\
    trained (self o') = true.
Proof.
  exists ["A"; "B"; "D"; "C"], tested_call.
  assert (Hcall : integrate first_seen_order insertion_sorter "user1" 0%Z tested_call
                  = (Ok ["A"; "B"; "D"; "C"], tested_call))
    by (vm_compute; reflexivity).
  destruct (integrate_changes_nothing first_seen_order insertion_sorter tested_call tested_call
              "user1" 0%Z ["A"; "B"; "D"; "C"] Hcall)
    as (Ht & _ & _ & _ & _ & Hu & Hc).
  split; [exact Hcall|]. split; [exact Hu|]. split; [exact Hc|]. exact Ht.
Defined.

(** ** Validation of the ensemble weights *)

(** Once the sections and [n_clusters] have passed, the outcome is decided by
    the value under [ensemble_weights] alone. *)
Lemma validate_config_weights {F : Type} {AF : Arith F}
      (config : list (string * pyval F)) (weights : pyval F) :
  reaches_weights config weights ->
  validate_config config
  = match weights with
    | PyList ws =>
        if negb (List.length ws =? 3)%nat || negb (forallb is_float ws)
        then Raise (ValueError msg_shape)
        else if fgtb (fabs (fsub (sum ws) (of_Z 1))) (dec 1 1000000)
             then Raise (ValueError msg_sum)
             else Ok tt
    | _ => Raise (ValueError msg_shape)
    end.
Proof.
  intros (Hua & Hce & (ua & n & Hentry & Hn & Hint & Hpos) & (integ & Hi & Hw)).
  unfold validate_config.
  assert (Hin : contains config "integration" = true).
  { unfold contains. now rewrite Hi. }
  rewrite Hua, Hce, Hin. simpl negb. simpl orb. cbv iota.
  unfold subscript at 1. rewrite Hentry. cbn [and_then].
  rewrite Hn. cbn [and_then]. rewrite Hint.
  assert (Hle : (int_value n <=? 0)%Z = false) by (apply Z.leb_gt; exact Hpos).
  rewrite Hle. simpl negb. simpl orb. cbv iota.
  unfold subscript at 1. rewrite Hi. cbn [and_then].
  rewrite Hw. cbn [and_then]. destruct weights; reflexivity.
Qed.

Lemma default_reaches_weights {F : Type} {AF : Arith F} (weights : pyval F) :
  reaches_weights (default_with_weights weights) weights.
Proof.
  split; [reflexivity|]. split; [reflexivity|]. split.
  - exists (PyMap [ ("n_clusters", PyInt 5);
                    ("temporal_window", PyInt 30);
                    ("min_interactions", PyInt 3) ]), (PyInt 5).
    repeat split.
  - eexists. split; reflexivity.
Qed.

(** The literals of the program, read as binary64 and as quotients. *)
Lemma binary64_literals :
  dec 4 10 = 0.4%float /\ dec 3 10 = 0.3%float /\ dec 5 10 = 0.5%float /\
  dec 6 10 = 0.6%float /\ dec 1 10 = 0.1%float /\ dec 1 1000000 = 1e-6%float /\
  of_Z 1 = 1.0%float /\ of_Z 0 = 0.0%float.
Proof.
  repeat split; vm_compute; reflexivity.
Qed.

(** C3. In a configuration that gets as far as the weights check,
    [validate_config] returns normally for the weights [[0.4, 0.3, 0.3]];
    raises the [ValueError] naming the sum for [[0.5, 0.3, 0.3]]; and raises
    the [ValueError] naming the shape (a list of three floats) for every list
    of two or of four weights.  Binary64 arithmetic. *)
Theorem validate_config_checks_ensemble_weights
    (config : list (string * pyval float)) (weights : pyval float) :
  reaches_weights config weights ->
  (weights = PyList [PyFloat 0.4%float; PyFloat 0.3%float; PyFloat 0.3%float] ->
   validate_config config = Ok tt) /\
  (weights = PyList [PyFloat 0.5%float; PyFloat 0.3%float; PyFloat 0.3%float] ->
   validate_config config
   = Raise (ValueError "'ensemble_weights' must sum to 1.0.")) /\
  (forall ws, weights = PyList ws ->
     List.length ws = 2 \/ List.length ws = 4 ->
     validate_config config
     = Raise (ValueError "'ensemble_weights' must be a list of three floats.")).
Proof.
  intros Hreach. rewrite (validate_config_weights config weights Hreach).
  split; [|split].
  - intros ->. vm_compute. reflexivity.
  - intros ->. vm_compute. reflexivity.
  - intros ws -> Hlen.
    assert (Hne : (List.length ws =? 3)%nat = false).
    { apply Nat.eqb_neq. lia. }
    rewrite Hne. reflexivity.
Qed.

Lemma validate_config_checks_ensemble_weights_witness :
  validate_config (F:=float) get_default_config = Ok tt /\
  validate_config
    (default_with_weights
       (PyList [PyFloat 0.5%float; PyFloat 0.3%float; PyFloat 0.3%float]))
  = Raise (ValueError "'ensemble_weights' must sum to 1.0.") /\
  validate_config
    (default_with_weights (PyList [PyFloat 0.5%float; PyFloat 0.5%float]))
  = Raise (ValueError "'ensemble_weights' must be a list of three floats.") /\
  validate_config
    (default_with_weights
       (PyList [PyFloat 0.25%float; PyFloat 0.25%float;
                PyFloat 0.25%float; PyFloat 0.25%float]))
  = Raise (ValueError "'ensemble_weights' must be a list of three floats.").
Proof.
  split; [|split; [|split]].
  - apply (validate_config_checks_ensemble_weights
             get_default_config
             (PyList [PyFloat 0.4%float; PyFloat 0.3%float; PyFloat 0.3%float])).
    + apply (default_reaches_weights (F:=float)).
    + reflexivity.
  - apply (validate_config_checks_ensemble_weights _ _ (default_reaches_weights _)).
    reflexivity.
  - eapply (validate_config_checks_ensemble_weights _ _ (default_reaches_weights _)).
    + reflexivity.
    + left. reflexivity.
  - eapply (validate_config_checks_ensemble_weights _ _ (default_reaches_weights _)).
    + reflexivity.
    + right. reflexivity.
Defined.

(** C9. [validate_config] has no sign check: [[1.5, -0.25, -0.25]] is a list of
    three floats with two negative entries whose sum is within the tolerance
    of 1.0, and every configuration that gets as far as the weights check with
    it validates; the default configuration with these weights is one.
    Binary64 arithmetic. *)
Theorem validate_config_accepts_negative_weights :
  exists w0 w1 w2 : float,
    let ws := [PyFloat w0; PyFloat w1; PyFloat w2] in
    forallb is_float ws = true /\
    fgtb (fabs (fsub (sum ws) (of_Z 1))) (dec 1 1000000) = false /\
    fltb w1 (of_Z 0) = true /\
    fltb w2 (of_Z 0) = true /\
    (forall config, reaches_weights config (PyList ws) ->
                    validate_config config = Ok tt) /\
    validate_config (default_with_weights (PyList ws)) = Ok tt.
Proof.
  exists 1.5%float, (-0.25)%float, (-0.25)%float. cbv zeta.
  assert (Hsum : fgtb (fabs (fsub (sum [PyFloat 1.5%float; PyFloat (-0.25)%float;
                                          PyFloat (-0.25)%float])
                                   (of_Z 1)))
                      (dec 1 1000000) = false)
    by (vm_compute; reflexivity).
  assert (Hall : forall config,
             reaches_weights config
               (PyList [PyFloat 1.5%float; PyFloat (-0.25)%float;
                        PyFloat (-0.25)%float]) ->
             validate_config config = Ok tt).
  { intros config Hreach.
    rewrite (validate_config_weights config _ Hreach).
    simpl negb. simpl orb. cbv iota. rewrite Hsum. reflexivity. }
  split; [reflexivity|].
  split; [exact Hsum|].
  split; [vm_compute; reflexivity|].
  split; [vm_compute; reflexivity|].
  split; [exact Hall|].
  apply Hall, default_reaches_weights.
Qed.

(** ** The novelty adjustment *)


Lemma trained_with_set_config {F : Type} {AF : Arith F}
      (cfg : IntegrationConfig F) (s : IntegrationModule F) (w_u w_c : F) :
  trained_with s w_u w_c -> trained_with (set_config cfg s) w_u w_c.
Proof.
  intros (Ht & Hu & Hc). repeat split; assumption.
Qed.

(** Exact scores are always ordered. *)
Lemma Q_scores_ordered (o : Objects Q) (w_u w_c : Q) : scores_ordered o w_u w_c.
Proof.
  apply strict_weak_consistent, Q_strict_weak.
Qed.





(** ** The worked example of the weighted ensemble *)




(** Nor is a positive scale enough in binary64: [novelty_factor = inf] makes
    [1 + novelty_factor] positive and every final score infinite, and the
    result is the iteration order of the universe. *)
Example binary64_infinite_novelty_ties_all_scores :
  fltb 0%float (1 + infinity)%float = true /\
  forall srt,
    fst (integrate first_seen_order srt "user1" 0%Z
           (call (set_weights 0.6%float 0.4%float 0%float
                    (module_with_novelty infinity))
                 ["A"; "B"; "C"] ["B"; "D"; "A"]))
    = Ok ["A"; "B"; "C"; "D"] /\
    fst (integrate reverse_first_seen_order srt "user1" 0%Z
           (call (set_weights 0.6%float 0.4%float 0%float
                    (module_with_novelty infinity))
                 ["A"; "B"; "C"] ["B"; "D"; "A"]))
    = Ok ["D"; "C"; "B"; "A"].
Proof.
  split; [vm_compute; reflexivity|].
  intros srt; split; by_insertion.
Qed.

(** ** Empty inputs and a single non-empty input *)

Lemma set_union_iter_nil (O : SetOrder) : set_union_iter O [] [] = [].
Proof.
  destruct (set_union_iter O [] []) as [|x l] eqn:E; [reflexivity|].
  assert (Hin : In x (set_union_iter O [] [])) by (rewrite E; now left).
  apply set_union_In in Hin. destruct Hin as [[]|[]].
Qed.

(** With nothing to rank the weights are never read: in any arithmetic, a
    module whose [trained] flag is set returns the empty list. *)
Lemma integrate_empty_lists {F : Type} {AF : Arith F} (O : SetOrder) (srt : Sorter)
      (s : IntegrationModule F) user_id timestamp :
  trained s = true ->
  integrate O srt user_id timestamp (call s [] []) = (Ok [], call s [] []).
Proof.
  intros Ht. unfold integrate, bind, read. simpl. rewrite Ht. simpl.
  rewrite set_union_iter_nil. simpl. unfold ret.
  now rewrite (Permutation_nil (Permutation_sym (sorted_rev_perm srt _ _ fltb snd []))).
Qed.

Lemma integrate_empty_lists_fst {F : Type} {AF : Arith F} (O : SetOrder)
      (srt : Sorter) (s : IntegrationModule F) user_id timestamp :
  trained s = true ->
  fst (integrate O srt user_id timestamp (call s [] [])) = Ok [].
Proof.
  intros Ht. now rewrite (integrate_empty_lists O srt s user_id timestamp Ht).
Qed.





(** Nor is a positive [w_user * (1 + novelty_factor)] enough in binary64:
    the weights [[1e308, -1e308, 1.0]] pass [validate_config], and with
    [novelty_factor = 3.0] both final scores overflow to infinity; the result
    is then the iteration order of the universe. *)
Example binary64_overflow_ties_one_sided_input :
  validate_config
    (default_with_weights
       (PyList [PyFloat 1e308%float; PyFloat (-1e308)%float; PyFloat 1%float]))
  = Ok tt /\
  fltb 0%float (1e308 * (1 + 3))%float = true /\
  forall srt,
    fst (integrate reverse_first_seen_order srt "user1" 0%Z
           (call (constructed_and_trained
                    (with_novelty (Some 3%float)
                       (with_weights [1e308%float; (-1e308)%float; 1%float]
                          default_integration_config)))
                 ["A"; "B"] []))
    = Ok ["B"; "A"].
Proof.
  split; [vm_compute; reflexivity|].
  split; [vm_compute; reflexivity|].
  intros srt. by_insertion.
Qed.

(** ** Determinism *)

(** C8, as the code has it.  The outcome of [integrate] is a function of the
    two lists, the weights [w_user] and [w_context] and the configured
    [novelty_factor]: two trained modules that agree on these return the same
    list, whatever else they hold, whatever [user_id] and [timestamp], for a
    given iteration order of the universe; and a second call on what the
    first leaves behind repeats it.  Under another iteration order the same
    items come back; where the final scores are ordered by [<] (no NaN among
    them) both lists are in descending order of final score, so only items
    with equal final scores can change places, and the lists are equal when
    no two distinct items tie.  In any arithmetic, for every sorter. *)
Theorem integrate_is_deterministic
    {F : Type} {AF : Arith F} (O O' : SetOrder) (srt : Sorter)
    (s s' : IntegrationModule F) (w_u w_c : F) (ups cps : list Item)
    (user_id user_id' : string) (timestamp timestamp' : Timestamp) :
  trained_with s w_u w_c ->
  trained_with s' w_u w_c ->
  config_get (novelty_factor (config s)) = config_get (novelty_factor (config s')) ->
  let score := final_score (call s ups cps) w_u w_c in
  fst (integrate O srt user_id' timestamp' (call s' ups cps))
  = fst (integrate O srt user_id timestamp (call s ups cps)) /\
  integrate O srt user_id' timestamp'
    (snd (integrate O srt user_id timestamp (call s ups cps)))
  = integrate O srt user_id timestamp (call s ups cps) /\
  exists r r',
    fst (integrate O srt user_id timestamp (call s ups cps)) = Ok r /\
    fst (integrate O' srt user_id' timestamp' (call s' ups cps)) = Ok r' /\
    Permutation r r' /\
    (scores_ordered (call s ups cps) w_u w_c ->
     descending fltb score r /\
     descending fltb score r' /\
     ((forall x y,
          In x ups \/ In x cps -> In y ups \/ In y cps -> x <> y ->
          fltb (score x) (score y) = true \/ fltb (score y) (score x) = true) ->
      r = r')).
Proof.
  intros Ht Ht' Hnov score.
  assert (Hscore : final_score (call s' ups cps) w_u w_c = score).
  { unfold score, final_score. simpl. now rewrite Hnov. }
  assert (Hsame : forall O0 uid ts,
             fst (integrate O0 srt uid ts (call s' ups cps))
             = fst (integrate O0 srt user_id timestamp (call s ups cps))).
  { intros O0 uid ts.
    rewrite (integrate_trained O0 srt uid ts (call s' ups cps) w_u w_c Ht').
    rewrite (integrate_trained O0 srt user_id timestamp (call s ups cps) w_u w_c Ht).
    simpl. now rewrite Hnov. }
  split; [apply Hsame|]. split.
  { rewrite (integrate_read_only O srt user_id timestamp (call s ups cps)).
    rewrite !(integrate_trained O srt _ _ (call s ups cps) w_u w_c Ht).
    reflexivity. }
  destruct (integrate_perm O srt user_id timestamp (call s ups cps) w_u w_c Ht)
    as (r & Hr & Hperm).
  destruct (integrate_perm O' srt user_id timestamp (call s ups cps) w_u w_c Ht)
    as (r' & Hr' & Hperm').
  simpl in Hperm, Hperm'.
  assert (Hrr' : Permutation r r').
  { eapply perm_trans; [exact Hperm|].
    eapply perm_trans; [|apply Permutation_sym, Hperm'].
    apply NoDup_Permutation; try apply set_union_NoDup.
    intros x. now rewrite !set_union_In. }
  exists r, r'. split; [now rewrite Hr|].
  split; [now rewrite Hsame, Hr'|].
  split; [exact Hrr'|].
  intros Hord.
  pose proof (integrate_sorted O srt user_id timestamp (call s ups cps) w_u w_c
                Ht Hord) as Es.
  pose proof (integrate_sorted O' srt user_id timestamp (call s ups cps) w_u w_c
                Ht Hord) as Es'.
  rewrite Hr in Es. rewrite Hr' in Es'. simpl in Es, Es'.
  injection Es as ->. injection Es' as ->.
  assert (Hd : forall O0,
             descending fltb score (sorted_desc fltb score (set_union_iter O0 ups cps))).
  { intros O0. apply sorted_desc_descending_on.
    apply (scores_ordered_universe O0 (call s ups cps) w_u w_c Hord). }
  split; [apply Hd|]. split; [apply Hd|].
  intros Hties. apply (descending_unique fltb score); trivial.
  - eapply Permutation_NoDup; [apply Permutation_sym, sorted_desc_perm|].
    apply set_union_NoDup.
  - intros x y Hx Hy.
    apply (Permutation_in _ (sorted_desc_perm fltb score _)) in Hx, Hy.
    apply Hties; apply (set_union_In O); assumption.
Qed.

Lemma integrate_is_deterministic_witness :
  exists r,
    fst (integrate first_seen_order insertion_sorter "user1" 0%Z
           (call (constructed_and_trained (F:=float) default_integration_config)
                 ["A"; "B"] ["C"])) = Ok r /\
    fst (integrate reverse_first_seen_order insertion_sorter "user2" 1%Z
           (call (set_weights 0.4%float 0.3%float 7%float
                    (constructed_and_trained default_integration_config))
                 ["A"; "B"] ["C"])) = Ok r.
Proof.
  destruct (integrate_is_deterministic (F:=float)
              first_seen_order reverse_first_seen_order insertion_sorter
              (constructed_and_trained default_integration_config)
              (set_weights 0.4%float 0.3%float 7%float
                 (constructed_and_trained default_integration_config))
              0.4%float 0.3%float ["A"; "B"] ["C"]
              "user1" "user2" 0%Z 1%Z)
    as (_ & _ & r & r' & Hr & Hr' & _ & Hsorted).
  - split; [reflexivity|]. split; vm_compute; reflexivity.
  - split; [reflexivity|]. split; reflexivity.
  - reflexivity.
  - destruct Hsorted as (_ & _ & Heq).
    + apply binary64_scores_ordered. simpl.
      intros item [[<-|[<-|[]]]|[<-|[]]]; vm_compute; reflexivity.
    + exists r. split; [exact Hr|]. rewrite Hr'. f_equal. symmetry. apply Heq.
      simpl. intros x y Hx Hy Hne.
      assert (Hx' : x = "A" \/ x = "B" \/ x = "C")
        by (destruct Hx as [[E|[E|[]]]|[E|[]]]; subst; tauto).
      assert (Hy' : y = "A" \/ y = "B" \/ y = "C")
        by (destruct Hy as [[E|[E|[]]]|[E|[]]]; subst; tauto).
      clear Hx Hy.
      destruct Hx' as [-> | [-> | ->]]; destruct Hy' as [-> | [-> | ->]];
        try contradiction; vm_compute; auto.
Defined.

(** C8, as the specification has it, fails: the lists and the weights do not
    determine the result.  A module is trained with the default weights and
    called on [['A','B']] and [[]]: it returns [['A','B']].  The entry
    [config['novelty_factor']] of the same module is then set to [-2.0], the
    weights staying as they are, and the same call returns [['B','A']].  No
    two scores are equal in either call.  Binary64, every iteration order,
    every sorter, every [user_id] and [timestamp]. *)
Lemma same_lists_and_weights_rank_differently :
  let s := constructed_and_trained (F:=float) default_integration_config in
  let s' := set_config (with_novelty (Some (-2)%float) (config s)) s in
  let score := final_score (call s ["A"; "B"] []) 0.4%float 0.3%float in
  let score' := final_score (call s' ["A"; "B"] []) 0.4%float 0.3%float in
  trained_with s 0.4%float 0.3%float /\
  trained_with s' 0.4%float 0.3%float /\
  integration_weight s' = integration_weight s /\
  score "A" <> score "B" /\
  score' "A" <> score' "B" /\
  (forall O srt user_id timestamp,
     fst (integrate O srt user_id timestamp (call s ["A"; "B"] []))
     = Ok ["A"; "B"] /\
     fst (integrate O srt user_id timestamp (call s' ["A"; "B"] []))
     = Ok ["B"; "A"]).
Proof.
  cbv zeta.
  set (s := constructed_and_trained (F:=float) default_integration_config).
  set (s' := set_config (with_novelty (Some (-2)%float) (config s)) s).
  assert (Ht : trained_with s 0.4%float 0.3%float).
  { split; [reflexivity|]. split; vm_compute; reflexivity. }
  assert (Ht' : trained_with s' 0.4%float 0.3%float)
    by (apply trained_with_set_config, Ht).
  split; [exact Ht|]. split; [exact Ht'|]. split; [reflexivity|].
  split; [vm_compute; discriminate|]. split; [vm_compute; discriminate|].
  intros O srt user_id timestamp. split.
  - apply (integrate_strict_ranking O srt user_id timestamp
             (call s ["A"; "B"] []) 0.4%float 0.3%float ["A"; "B"] Ht).
    + apply consistentb_spec. vm_compute. reflexivity.
    + intros x. simpl. tauto.
    + repeat constructor; vm_compute; reflexivity.
  - apply (integrate_strict_ranking O srt user_id timestamp
             (call s' ["A"; "B"] []) 0.4%float 0.3%float ["B"; "A"] Ht').
    + apply consistentb_spec. vm_compute. reflexivity.
    + intros x. simpl. tauto.
    + repeat constructor; vm_compute; reflexivity.
Qed.

(** ** The repository's integration tests, replayed in binary64 *)

(** INT-INT-001: weights 0.6 and 0.4 set by hand, default [novelty_factor].
    In binary64 [0.6 * (1/3)] is just below [0.4 * 0.5], so [D] precedes [C]
    for either iteration order. *)
Example binary64_weighted_ensemble_test :
  combined_scores first_seen_order 0.6%float 0.4%float
    ["A"; "B"; "C"] ["B"; "D"; "A"]
  = [("A", 0.73333333333333328%float); ("B", 0.7%float);
     ("C", 0.19999999999999998%float); ("D", 0.2%float)] /\
  forall srt,
    fst (integrate first_seen_order srt "user1" 0%Z tested_call)
    = Ok ["A"; "B"; "D"; "C"] /\
    fst (integrate reverse_first_seen_order srt "user1" 0%Z tested_call)
    = Ok ["A"; "B"; "D"; "C"].
Proof.
  split; [vm_compute; reflexivity|].
  intros srt. split; by_insertion.
Qed.

(** INT-INT-002 and INT-INT-003: default configuration, trained. *)
Example binary64_empty_input_tests :
  forall srt O, In O [first_seen_order; reverse_first_seen_order] ->
    fst (integrate O srt "user1" 0%Z
           (call (constructed_and_trained (F:=float) default_integration_config)
                 [] []))
    = Ok [] /\
    fst (integrate O srt "user1" 0%Z
           (call (constructed_and_trained (F:=float) default_integration_config)
                 ["item_A"; "item_B"] []))
    = Ok ["item_A"; "item_B"].
Proof.
  intros srt O [<-|[<-|[]]]; split;
    solve [ apply integrate_empty_lists_fst; reflexivity | by_insertion ].
Qed.

(** Rounding can make a positive scale tie two scores that differ: in the
    weighted-ensemble test [C] scores one unit in the last place below [D],
    and scaled by [1 + 0.3] both round to the same float, after which their
    order is the iteration order of the universe. *)
Example binary64_positive_novelty_can_tie :
  let scaled (item : Item) :=
    final_score
      (call (set_weights 0.6%float 0.4%float 0%float
               (module_with_novelty 0.3%float))
            ["A"; "B"; "C"] ["B"; "D"; "A"])
      0.6%float 0.4%float item in
  scaled "C" = scaled "D" /\
  fltb (combined_score 0.6%float 0.4%float ["A"; "B"; "C"] ["B"; "D"; "A"] "C")
       (combined_score 0.6%float 0.4%float ["A"; "B"; "C"] ["B"; "D"; "A"] "D")
  = true /\
  forall srt,
    fst (integrate first_seen_order srt "user1" 0%Z
           (call (set_weights 0.6%float 0.4%float 0%float
                    (module_with_novelty 0.3%float))
                 ["A"; "B"; "C"] ["B"; "D"; "A"]))
    = Ok ["A"; "B"; "C"; "D"] /\
    fst (integrate first_seen_order srt "user1" 0%Z
           (call (set_weights 0.6%float 0.4%float 0%float
                    (module_with_novelty 0%float))
                 ["A"; "B"; "C"] ["B"; "D"; "A"]))
    = Ok ["A"; "B"; "D"; "C"].
Proof.
  split; [vm_compute; reflexivity|].
  split; [vm_compute; reflexivity|].
  intros srt. split; by_insertion.
Qed.

(** [<] on binary64 is no strict weak order: NaN is below nothing and above
    nothing, also between numbers that differ.  That the scores of a call
    are ordered is therefore a condition on the call. *)
Lemma binary64_lt_is_not_a_strict_weak_order : ~ StrictWeak (fltb (F:=float)).
Proof.
  intros [_ Hneg].
  specialize (Hneg 1%float nan 2%float eq_refl eq_refl).
  vm_compute in Hneg. discriminate Hneg.
Qed.

(** Final scores that [<] does not order.  The weights [[1.0, -1.0, 1.0]]
    pass [validate_config]; with [novelty_factor = inf] an item ranked alike
    in both lists scores [0 * inf], a NaN, beside scores of [inf] and [-inf].
    What [sorted] makes of such keys depends on its algorithm, and the
    properties of the order of the result do not speak of this call. *)
Example binary64_nan_scores_are_not_ordered :
  let o :=
    call (constructed_and_trained
            (with_novelty (Some infinity)
               (with_weights [1%float; (-1)%float; 1%float]
                  default_integration_config)))
         ["A"; "B"] ["A"; "C"] in
  validate_config
    (default_with_weights
       (PyList [PyFloat 1%float; PyFloat (-1)%float; PyFloat 1%float]))
  = Ok tt /\
  trained_with (self o) 1%float (-1)%float /\
  map (final_score o 1%float (-1)%float) ["A"; "B"; "C"]
  = [nan; infinity; neg_infinity] /\
  ~ scores_ordered o 1%float (-1)%float.
Proof.
  cbv zeta. split; [vm_compute; reflexivity|].
  split; [repeat split|]. split; [vm_compute; reflexivity|].
  intros Hord. apply consistentb_spec in Hord. vm_compute in Hord. discriminate Hord.
Qed.

(** The weight checks of [validate_config] come out the same in exact
    arithmetic. *)
Example exact_weight_checks :
  validate_config (F:=Q) get_default_config = Ok tt /\
  validate_config
    (default_with_weights (PyList [PyFloat 0.5%Q; PyFloat 0.3%Q; PyFloat 0.3%Q]))
  = Raise (ValueError msg_sum) /\
  validate_config
    (default_with_weights
       (PyList [PyFloat 1.5%Q; PyFloat (-0.25)%Q; PyFloat (-0.25)%Q]))
  = Ok tt.
Proof.
  repeat split; vm_compute; reflexivity.
Qed.

(** * Beyond the weighted ensemble: training, validation, the framework *)

(** ** [IntegrationModule.train] *)

(** The module [train] produces from a configuration holding the weights
    [a], [b], [c]. *)
Definition trained_module {F : Type} (cfg : IntegrationConfig F) (a b c : F)
  : IntegrationModule F :=
  {| config := cfg;
     trained := true;
     user_analytics_weight := Some a;
     context_engine_weight := Some b;
     integration_weight := Some c |}.

Lemma train_run {F : Type} {AF : Arith F} {Obj : Type}
      (user_analytics context_engine : Obj) (o : Objects F) (a b c : F) :
  ensemble_weights (config (self o)) = Some [a; b; c] ->
  train user_analytics context_engine o
  = (Ok tt, call (trained_module (config (self o)) a b c)
              (user_predictions o) (context_predictions o)).
Proof.
  intros Hw. unfold train, bind, read. rewrite Hw. reflexivity.
Qed.

Lemma train_ok_inv {F : Type} {AF : Arith F} {Obj : Type}
      (user_analytics context_engine : Obj) (o : Objects F) :
  fst (train user_analytics context_engine o) = Ok tt ->
  exists a b c, ensemble_weights (config (self o)) = Some [a; b; c].
Proof.
  unfold train, bind, read. simpl.
  destruct (ensemble_weights (config (self o))) as [ws|]; [|discriminate].
  destruct ws as [|a [|b [|c [|d ws]]]]; simpl; try discriminate.
  intros _. now exists a, b, c.
Qed.

(** [train] succeeds exactly when [config['ensemble_weights']] is there and
    holds three values; it then sets the flag and the three weights from the
    configuration, whatever they were, and touches nothing else.  Its two
    arguments are not looked at. *)
Theorem train_succeeds_iff_three_weights
    {F : Type} {AF : Arith F} {Obj : Type} (user_analytics context_engine : Obj)
    (o : Objects F) :
  (fst (train user_analytics context_engine o) = Ok tt
   <-> exists a b c, ensemble_weights (config (self o)) = Some [a; b; c]) /\
  (forall a b c,
      ensemble_weights (config (self o)) = Some [a; b; c] ->
      train user_analytics context_engine o
      = (Ok tt, call (trained_module (config (self o)) a b c)
                  (user_predictions o) (context_predictions o))).
Proof.
  split; [split|].
  - apply train_ok_inv.
  - intros (a & b & c & Hw).
    now rewrite (train_run user_analytics context_engine o a b c Hw).
  - apply train_run.
Qed.

Lemma train_raise_inv {F : Type} {AF : Arith F} {Obj : Type}
      (user_analytics context_engine : Obj) (o o' : Objects F) (e : exn) :
  train user_analytics context_engine o = (Raise e, o') -> o' = o.
Proof.
  unfold train, bind, read. simpl.
  destruct (ensemble_weights (config (self o))) as [ws|]; simpl.
  - destruct ws as [|a [|b [|c [|d ws]]]]; unfold raise, write_self; simpl;
      congruence.
  - congruence.
Qed.

(** A [train] that raises has assigned nothing: the flag and the weights are
    as before.  It raises [KeyError] when the configuration has no
    [ensemble_weights], and [ValueError] (from the unpacking) when the list
    does not hold exactly three values. *)
Theorem train_failure_is_atomic
    {F : Type} {AF : Arith F} {Obj : Type} (user_analytics context_engine : Obj)
    (o o' : Objects F) (e : exn) :
  train user_analytics context_engine o = (Raise e, o') ->
  o' = o /\
  match ensemble_weights (config (self o)) with
  | None => e = KeyError "ensemble_weights"
  | Some ws => List.length ws <> 3 /\ exists msg, e = ValueError msg
  end.
Proof.
  unfold train, bind, read. simpl.
  destruct (ensemble_weights (config (self o))) as [ws|]; simpl.
  - destruct ws as [|a [|b [|c [|d ws]]]]; simpl; intros [= <- <-];
      (split; [reflexivity | split; [simpl; lia | eexists; reflexivity]]).
  - intros [= <- <-]. split; reflexivity.
Qed.

Lemma train_failure_is_atomic_witness :
  exists e,
    train tt tt
      (call (__init__ (F:=float)
               (with_weights [0.5%float; 0.5%float] default_integration_config))
            ["A"] ["B"])
    = (Raise e,
       call (__init__ (with_weights [0.5%float; 0.5%float] default_integration_config))
            ["A"] ["B"]) /\
    exists msg, e = ValueError msg.
Proof.
  eexists. split; [reflexivity|].
  destruct (train_failure_is_atomic tt tt
              (call (__init__ (F:=float)
                       (with_weights [0.5%float; 0.5%float]
                          default_integration_config))
                    ["A"] ["B"]) _ _ eq_refl) as (_ & _ & Hmsg).
  exact Hmsg.
Defined.

(** Training again restores the configured weights: weights assigned by hand
    after a first [train] (as the repository's tests do) do not survive a
    second one, and a second [train] right after the first changes nothing. *)
Theorem retrain_restores_configured_weights
    {F : Type} {AF : Arith F} {Obj : Type} (user_analytics context_engine : Obj)
    (o o1 : Objects F) (x y z : F) :
  train user_analytics context_engine o = (Ok tt, o1) ->
  train user_analytics context_engine o1 = (Ok tt, o1) /\
  train user_analytics context_engine
    (call (set_weights x y z (self o1)) (user_predictions o1) (context_predictions o1))
  = (Ok tt, o1).
Proof.
  intros Hrun.
  destruct (train_ok_inv user_analytics context_engine o) as (a & b & c & Hw);
    [now rewrite Hrun|].
  rewrite (train_run user_analytics context_engine o a b c Hw) in Hrun.
  injection Hrun as <-.
  split.
  - apply (train_run user_analytics context_engine
             (call (trained_module (config (self o)) a b c)
                   (user_predictions o) (context_predictions o)) a b c Hw).
  - apply (train_run user_analytics context_engine
             (call (set_weights x y z (trained_module (config (self o)) a b c))
                   (user_predictions o) (context_predictions o)) a b c Hw).
Qed.

Lemma retrain_restores_configured_weights_witness :
  let o1 := call (constructed_and_trained (F:=float) default_integration_config)
                 ["A"] ["B"] in
  train tt tt
    (call (set_weights 0.6%float 0.4%float 0%float (self o1)) ["A"] ["B"])
  = (Ok tt, o1).
Proof.
  apply (retrain_restores_configured_weights tt tt
           (call (__init__ (F:=float) default_integration_config) ["A"] ["B"])).
  reflexivity.
Defined.

(** *** Construct, train, integrate *)

(** [m = IntegrationModule(cfg); m.train(..); m.integrate(ups, cps, ..)] with
    three configured weights never raises, in any arithmetic and for every
    sorter: the call returns the items of the two lists, each once, and
    leaves the module as [train] made it.  Where the final scores, computed
    from the first two configured weights, are ordered by [<] (no NaN among
    them), the list is the stable descending sort of the universe: no item is
    followed by one with a strictly larger final score.  The third weight has
    no part in it. *)
Theorem train_then_integrate_returns
    {F : Type} {AF : Arith F} {Obj : Type} (user_analytics context_engine : Obj)
    (O : SetOrder) (srt : Sorter) (cfg : IntegrationConfig F) (a b c : F)
    (ups cps : list Item) (user_id : string) (timestamp : Timestamp) :
  ensemble_weights cfg = Some [a; b; c] ->
  let after := call (trained_module cfg a b c) ups cps in
  exists r,
    bind (train user_analytics context_engine)
         (fun _ => integrate O srt user_id timestamp)
         (call (__init__ cfg) ups cps)
    = (Ok r, after) /\
    Permutation r (set_union_iter O ups cps) /\
    NoDup r /\
    (forall item, In item r <-> In item ups \/ In item cps) /\
    (scores_ordered after a b ->
     r = sorted_desc fltb (final_score after a b) (set_union_iter O ups cps) /\
     descending fltb (final_score after a b) r).
Proof.
  intros Hw after.
  assert (Ht : trained_with (self after) a b) by (repeat split).
  destruct (integrate_perm O srt user_id timestamp after a b Ht)
    as (r & Hr & Hperm).
  simpl in Hperm.
  exists r. split; [|split; [exact Hperm|split; [|split]]].
  - unfold bind at 1.
    rewrite (train_run user_analytics context_engine (call (__init__ cfg) ups cps)
               a b c Hw).
    exact Hr.
  - eapply Permutation_NoDup; [apply Permutation_sym, Hperm|].
    apply set_union_NoDup.
  - intros item. rewrite <- (set_union_In O). split; apply Permutation_in;
      [exact Hperm | apply Permutation_sym, Hperm].
  - intros Hord.
    pose proof (integrate_sorted O srt user_id timestamp after a b Ht Hord) as Es.
    rewrite Hr in Es. simpl in Es. injection Es as ->.
    split; [reflexivity|].
    apply sorted_desc_descending_on.
    apply (scores_ordered_universe O after a b Hord).
Qed.

Lemma train_then_integrate_returns_witness :
  exists r,
    bind (train tt tt) (fun _ => integrate first_seen_order insertion_sorter "user1" 0%Z)
         (call (__init__ (F:=float) default_integration_config)
               ["A"; "B"] ["C"])
    = (Ok r, call (trained_module default_integration_config
                     (dec 4 10) (dec 3 10) (dec 3 10)) ["A"; "B"] ["C"]) /\
    NoDup r /\
    descending fltb
      (final_score
         (call (trained_module (F:=float) default_integration_config
                  (dec 4 10) (dec 3 10) (dec 3 10)) ["A"; "B"] ["C"])
         (dec 4 10) (dec 3 10))
      r.
Proof.
  destruct (train_then_integrate_returns (F:=float) tt tt first_seen_order
              insertion_sorter
              default_integration_config (dec 4 10) (dec 3 10) (dec 3 10)
              ["A"; "B"] ["C"] "user1" 0%Z eq_refl)
    as (r & Hr & _ & Hnd & _ & Hsorted).
  exists r. split; [exact Hr|]. split; [exact Hnd|].
  apply Hsorted. apply consistentb_spec. vm_compute. reflexivity.
Defined.

(** The gate of [integrate] is the flag alone.  After a [train] that raised,
    the flag is still false and [integrate] raises the untrained error; with
    the flag set by hand but no weight ever assigned, a call with anything to
    rank raises [AttributeError] at the first use of a weight.  Either way
    nothing is changed. *)
Theorem integrate_gate_is_the_flag
    {F : Type} {AF : Arith F} {Obj : Type} (user_analytics context_engine : Obj)
    (O : SetOrder) (srt : Sorter) (o : Objects F) (user_id : string) (timestamp : Timestamp) :
  (trained (self o) = false ->
   fst (train user_analytics context_engine o) <> Ok tt ->
   integrate O srt user_id timestamp (snd (train user_analytics context_engine o))
   = (Raise (RuntimeError "The IntegrationModule has not been trained yet."), o)) /\
  (trained (self o) = true ->
   user_analytics_weight (self o) = None ->
   user_predictions o <> [] \/ context_predictions o <> [] ->
   integrate O srt user_id timestamp o
   = (Raise (AttributeError "user_analytics_weight"), o)).
Proof.
  split.
  - intros Hflag Hfail.
    destruct (train user_analytics context_engine o) as [[[]|e] o'] eqn:Htrain.
    + exfalso. apply Hfail. reflexivity.
    + apply train_raise_inv in Htrain. subst o'. simpl. unfold integrate, bind, read. rewrite Hflag. reflexivity.
  - intros Hflag Hnone Hsome.
    destruct (set_union_iter O (user_predictions o) (context_predictions o))
      as [|x l] eqn:Hu.
    + exfalso.
      assert (Hin : exists y, In y (user_predictions o)
                              \/ In y (context_predictions o)).
      { destruct Hsome as [H|H].
        - destruct (user_predictions o) as [|y t]; [congruence|].
          exists y. left. now left.
        - destruct (context_predictions o) as [|y t]; [congruence|].
          exists y. right. now left. }
      destruct Hin as [y Hy]. apply (set_union_In O) in Hy.
      rewrite Hu in Hy. destruct Hy.
    + unfold integrate, bind, read. rewrite Hflag. cbn [negb]. cbv beta iota.
      rewrite Hu. unfold combine_loop. cbn [for_each].
      unfold bind, attr. rewrite Hnone. reflexivity.
Qed.

Lemma integrate_gate_is_the_flag_witness :
  integrate first_seen_order insertion_sorter "user1" 0%Z
    (call (set_trained true (__init__ (F:=float) default_integration_config))
          ["A"] [])
  = (Raise (AttributeError "user_analytics_weight"),
     call (set_trained true (__init__ default_integration_config)) ["A"] []).
Proof.
  apply (proj2 (integrate_gate_is_the_flag (F:=float) tt tt first_seen_order insertion_sorter
                  (call (set_trained true (__init__ default_integration_config))
                        ["A"] [])
                  "user1" 0%Z)).
  - reflexivity.
  - reflexivity.
  - left. discriminate.
Defined.

(** ** More on the scores and the order of the result *)

(** [x] stands somewhere before an occurrence of [y]. *)
Inductive before {A : Type} (x y : A) : list A -> Prop :=
| before_here (l : list A) : In y l -> before x y (x :: l)
| before_skip (z : A) (l : list A) : before x y l -> before x y (z :: l).

Section OrderFacts.
Context {A K : Type}.

Lemma before_positions (x y : A) (l : list A) :
  before x y l <->
  exists i j, i < j /\ nth_error l i = Some x /\ nth_error l j = Some y.
Proof.
  split.
  - induction 1 as [l Hy | z l _ (i & j & Hij & Hi & Hj)].
    + apply In_nth_error in Hy as [j Hj]. exists 0, (S j).
      repeat split; [lia | exact Hj].
    + exists (S i), (S j). repeat split; [lia | exact Hi | exact Hj].
  - intros (i & j & Hij & Hi & Hj). revert i j Hij Hi Hj.
    induction l as [|z l IH]; intros i j Hij Hi Hj.
    + destruct i; discriminate.
    + destruct i as [|i].
      * injection Hi as ->. destruct j as [|j]; [lia|].
        apply before_here. eapply nth_error_In, Hj.
      * destruct j as [|j]; [lia|]. apply before_skip.
        apply (IH i j); [lia | exact Hi | exact Hj].
Qed.

Lemma before_In_l (x y : A) (l : list A) : before x y l -> In x l.
Proof.
  induction 1; [now left | now right].
Qed.

Lemma before_In_r (x y : A) (l : list A) : before x y l -> In y l.
Proof.
  induction 1; now right.
Qed.

(** Inserting leaves the elements already there in their order. *)
Lemma insert_desc_keeps_before (ltb : K -> K -> bool) (key : A -> K)
      (h x y : A) (s : list A) :
  before x y s -> before x y (insert_desc ltb key h s).
Proof.
  induction 1 as [l Hy | z l Hb IH]; simpl.
  - destruct (ltb (key h) (key x)).
    + apply before_here.
      eapply Permutation_in; [apply Permutation_sym, insert_desc_perm|].
      now right.
    + apply before_skip, before_here, Hy.
  - destruct (ltb (key h) (key z)).
    + apply before_skip, IH.
    + apply before_skip, before_skip, Hb.
Qed.

(** The inserted element stays ahead of whatever does not beat it. *)
Lemma insert_desc_before (ltb : K -> K -> bool) (key : A -> K)
      (x y : A) (s : list A) :
  In y s -> ltb (key x) (key y) = false ->
  before x y (insert_desc ltb key x s).
Proof.
  intros Hy Hxy. induction s as [|z s IH]; [destruct Hy|]. simpl.
  destruct (ltb (key x) (key z)) eqn:E.
  - apply before_skip, IH. destruct Hy as [->|Hy]; [congruence | exact Hy].
  - apply before_here, Hy.
Qed.

(** The sort is stable: an element keeps its place ahead of a later one
    whose key is not strictly larger. *)
Lemma sorted_desc_stable (ltb : K -> K -> bool) (key : A -> K)
      (x y : A) (l : list A) :
  before x y l -> ltb (key x) (key y) = false ->
  before x y (sorted_desc ltb key l).
Proof.
  intros Hb Hxy. induction Hb as [l Hy | z l _ IH]; simpl.
  - apply insert_desc_before; [|exact Hxy].
    eapply Permutation_in; [apply Permutation_sym, sorted_desc_perm | exact Hy].
  - apply insert_desc_keeps_before, IH.
Qed.

End OrderFacts.

(** Ties keep the iteration order of the universe, in any arithmetic and for
    every sorter, where the final scores are ordered by [<] (no NaN among
    them): if the set yields [x] before [y] and the final score of [y] is not
    strictly above that of [x] (equal scores in particular), then [x] is
    returned before [y]. *)
Theorem integrate_breaks_ties_by_iteration_order
    {F : Type} {AF : Arith F} (O : SetOrder) (srt : Sorter)
    (o : Objects F) (w_u w_c : F)
    (user_id : string) (timestamp : Timestamp) (x y : Item) (i j : nat) :
  trained_with (self o) w_u w_c ->
  scores_ordered o w_u w_c ->
  let universe := set_union_iter O (user_predictions o) (context_predictions o) in
  nth_error universe i = Some x ->
  nth_error universe j = Some y ->
  i < j ->
  fltb (final_score o w_u w_c x) (final_score o w_u w_c y) = false ->
  exists r i' j',
    fst (integrate O srt user_id timestamp o) = Ok r /\
    nth_error r i' = Some x /\ nth_error r j' = Some y /\ i' < j'.
Proof.
  intros Ht Hord universe Hi Hj Hij Hxy.
  assert (Hb : before x y universe).
  { apply before_positions. exists i, j. repeat split; assumption. }
  apply (sorted_desc_stable fltb (final_score o w_u w_c)) in Hb; [|exact Hxy].
  apply before_positions in Hb as (i' & j' & Hij' & Hi' & Hj').
  exists (sorted_desc fltb (final_score o w_u w_c) universe), i', j'.
  split; [apply (integrate_sorted O srt user_id timestamp o w_u w_c Ht Hord)|].
  repeat split; assumption.
Qed.

(** In binary64 the scale [1 + 0.3] rounds the scores of [C] and [D] of the
    worked example to one float; [C] is iterated first and stays first. *)
Lemma integrate_breaks_ties_by_iteration_order_witness :
  exists r i' j',
    fst (integrate first_seen_order insertion_sorter "user1" 0%Z
           (call (set_weights 0.6%float 0.4%float 0%float
                    (module_with_novelty 0.3%float))
                 ["A"; "B"; "C"] ["B"; "D"; "A"])) = Ok r /\
    nth_error r i' = Some "C" /\ nth_error r j' = Some "D" /\ i' < j'.
Proof.
  apply (integrate_breaks_ties_by_iteration_order first_seen_order insertion_sorter
           (call (set_weights 0.6%float 0.4%float 0%float
                    (module_with_novelty 0.3%float))
                 ["A"; "B"; "C"] ["B"; "D"; "A"])
           0.6%float 0.4%float "user1" 0%Z "C" "D" 2 3).
  - repeat split.
  - apply consistentb_spec. vm_compute. reflexivity.
  - reflexivity.
  - reflexivity.
  - lia.
  - vm_compute. reflexivity.
Defined.

(** What [integrate] never looks at: the third weight, [diversity_factor]
    and [confidence_threshold].  Two trained modules with the same first two
    weights and the same [novelty_factor] return the same list; no item is
    filtered by the confidence threshold. *)
Theorem integrate_ignores_dead_parameters
    {F : Type} {AF : Arith F} (O : SetOrder) (srt : Sorter) (s s' : IntegrationModule F)
    (w_u w_c : F) (ups cps : list Item) (user_id : string) (timestamp : Timestamp) :
  trained_with s w_u w_c ->
  trained_with s' w_u w_c ->
  config_get (novelty_factor (config s)) = config_get (novelty_factor (config s')) ->
  fst (integrate O srt user_id timestamp (call s ups cps))
  = fst (integrate O srt user_id timestamp (call s' ups cps)).
Proof.
  intros Ht Ht' Hnov.
  rewrite (integrate_trained O srt user_id timestamp (call s ups cps) w_u w_c Ht).
  rewrite (integrate_trained O srt user_id timestamp (call s' ups cps) w_u w_c Ht').
  simpl. now rewrite Hnov.
Qed.

(** The default module with the confidence threshold raised above every
    score, no diversity factor and another third weight. *)
Definition strict_confidence_module : IntegrationModule float :=
  set_weights 0.4%float 0.3%float 7%float
    (set_config
       {| ensemble_weights := Some [0.4%float; 0.3%float; 0.3%float];
          confidence_threshold := Some 100%float;
          diversity_factor := None;
          novelty_factor := Some 0.1%float |}
       (constructed_and_trained default_integration_config)).

Lemma integrate_ignores_dead_parameters_witness :
  fst (integrate first_seen_order insertion_sorter "user1" 0%Z
         (call (constructed_and_trained (F:=float) default_integration_config)
               ["A"; "B"] ["C"]))
  = fst (integrate first_seen_order insertion_sorter "user1" 0%Z
           (call strict_confidence_module ["A"; "B"] ["C"])).
Proof.
  apply (integrate_ignores_dead_parameters first_seen_order insertion_sorter
           (constructed_and_trained (F:=float) default_integration_config)
           strict_confidence_module 0.4%float 0.3%float).
  - repeat split.
  - repeat split.
  - reflexivity.
Defined.

(** *** Ranked lists without duplicates *)

Section DistinctRanks.
Context {F : Type} {AF : Arith F}.

Lemma rank_scores_fold_distinct (l : list Item) :
  forall (start : nat) (d : PyDict.t F),
    NoDup l ->
    (forall x, In x l -> ~ In x (PyDict.keys d)) ->
    fold_left
      (fun d '(i, item) =>
         PyDict.setitem d item (fdiv (of_Z 1) (of_Z (Z.of_nat i + 1))))
      (enumerate_from start l) d
    = d ++ map (fun '(i, item) => (item, fdiv (of_Z 1) (of_Z (Z.of_nat i + 1))))
               (enumerate_from start l).
Proof.
  induction l as [|x l IH]; intros start d Hnd Hfresh; simpl.
  - now rewrite app_nil_r.
  - inversion Hnd as [|? ? Hx Hnd']; subst.
    rewrite setitem_fresh by (apply Hfresh; now left).
    rewrite IH; trivial.
    + now rewrite <- app_assoc.
    + intros y Hy. unfold PyDict.keys. rewrite map_app, in_app_iff. simpl.
      intros [Hin|[->|[]]]; [|contradiction].
      apply (Hfresh y); [now right | exact Hin].
Qed.

Lemma lookup_enumerated (g : nat -> F) (l : list Item) :
  forall (start r : nat) (x : Item),
    NoDup l ->
    nth_error l r = Some x ->
    PyDict.lookup (map (fun '(i, item) => (item, g i)) (enumerate_from start l)) x
    = Some (g (start + r)).
Proof.
  induction l as [|y l IH]; intros start r x Hnd Hr.
  - destruct r; discriminate.
  - inversion Hnd as [|? ? Hy Hnd']; subst. simpl.
    destruct r as [|r]; simpl in Hr.
    + injection Hr as ->. rewrite String.eqb_refl, Nat.add_0_r. reflexivity.
    + destruct (String.eqb_spec x y) as [->|_].
      * exfalso. apply Hy. eapply nth_error_In, Hr.
      * rewrite (IH (S start) r x Hnd' Hr). f_equal. f_equal. lia.
Qed.

Lemma keys_enumerated (g : nat -> F) (l : list Item) (start : nat) :
  PyDict.keys (map (fun '(i, item) => (item, g i)) (enumerate_from start l)) = l.
Proof.
  revert start. induction l as [|x l IH]; intros start; simpl.
  - reflexivity.
  - f_equal. apply IH.
Qed.

End DistinctRanks.

(** For a list without duplicates (what the two predictors return) the score
    map holds the items in list order, the item at position [r] with the score
    [1 / (r + 1)]. *)
Theorem rank_scores_of_distinct_items
    {F : Type} {AF : Arith F} (predictions : list Item) :
  NoDup predictions ->
  rank_scores (F:=F) predictions
  = map (fun '(i, item) => (item, fdiv (of_Z 1) (of_Z (Z.of_nat i + 1))))
        (enumerate predictions) /\
  PyDict.keys (rank_scores (F:=F) predictions) = predictions /\
  (forall r item,
      nth_error predictions r = Some item ->
      PyDict.lookup (rank_scores (F:=F) predictions) item
      = Some (fdiv (of_Z 1) (of_Z (Z.of_nat r + 1)))).
Proof.
  intros Hnd.
  assert (Hform : rank_scores (F:=F) predictions
                  = map (fun '(i, item) =>
                           (item, fdiv (of_Z 1) (of_Z (Z.of_nat i + 1))))
                        (enumerate predictions)).
  { unfold rank_scores, enumerate.
    rewrite (rank_scores_fold_distinct predictions 0 PyDict.empty Hnd).
    - reflexivity.
    - intros x _ []. }
  split; [exact Hform|]. split.
  - rewrite Hform. unfold enumerate.
    apply (keys_enumerated (fun i => fdiv (of_Z 1) (of_Z (Z.of_nat i + 1)))).
  - intros r item Hr. rewrite Hform. unfold enumerate.
    apply (lookup_enumerated
             (fun i => fdiv (of_Z 1) (of_Z (Z.of_nat i + 1)))
             predictions 0 r item Hnd Hr).
Qed.

Lemma rank_scores_of_distinct_items_witness :
  rank_scores (F:=float) ["A"; "B"; "C"]
  = [("A", 1%float); ("B", 0.5%float); ("C", 0.33333333333333331%float)].
Proof.
  rewrite (proj1 (rank_scores_of_distinct_items (F:=float) ["A"; "B"; "C"]
                    ltac:(repeat constructor; simpl; intuition discriminate))).
  vm_compute. reflexivity.
Defined.

(** *** Bounds, in exact arithmetic *)

Lemma reciprocal_rank_bounds (r : nat) :
  (0 < reciprocal_rank (F:=Q) r /\ reciprocal_rank (F:=Q) r <= 1)%Q.
Proof.
  unfold reciprocal_rank. simpl.
  assert (Hq : (1 <= inject_Z (Z.of_nat r + 1))%Q).
  { change (inject_Z 1 <= inject_Z (Z.of_nat r + 1))%Q.
    rewrite <- Zle_Qle. lia. }
  assert (Hpos : (0 < inject_Z (Z.of_nat r + 1))%Q) by lra.
  change (inject_Z 1) with 1%Q.
  split.
  - apply Qlt_shift_div_l; [exact Hpos | rewrite Qmult_0_l; reflexivity].
  - apply Qle_shift_div_r; [exact Hpos | rewrite Qmult_1_l; exact Hq].
Qed.

Lemma rank_score_bounds (l : list Item) (x : Item) :
  (0 <= PyDict.get (rank_scores (F:=Q) l) x (of_Z 0)
   /\ PyDict.get (rank_scores (F:=Q) l) x (of_Z 0) <= 1)%Q.
Proof.
  unfold PyDict.get. rewrite rank_scores_lookup.
  destruct (last_index x l) as [r|]; simpl.
  - destruct (reciprocal_rank_bounds r) as [Hlo Hhi].
    unfold reciprocal_rank in Hlo, Hhi. simpl in Hlo, Hhi. split; lra.
  - split; [apply Qle_refl | discriminate].
Qed.

(** With non-negative weights every combined score lies between 0 and
    [w_user + w_context]; with [1 + novelty_factor] non-negative as well, no
    final score is negative. *)
Theorem scores_are_bounded
    (o : Objects Q) (w_u w_c : Q) (item : Item) :
  (0 <= w_u)%Q -> (0 <= w_c)%Q ->
  (0 <= combined_score w_u w_c (user_predictions o) (context_predictions o) item
   /\ combined_score w_u w_c (user_predictions o) (context_predictions o) item
      <= w_u + w_c)%Q /\
  ((0 <= 1 + config_get (novelty_factor (config (self o))))%Q ->
   (0 <= final_score o w_u w_c item)%Q).
Proof.
  intros Hu Hc. unfold final_score, combined_score.
  destruct (rank_score_bounds (user_predictions o) item) as [Hu0 Hu1].
  destruct (rank_score_bounds (context_predictions o) item) as [Hc0 Hc1].
  set (su := PyDict.get (rank_scores (user_predictions o)) item (of_Z 0)) in *.
  set (sc := PyDict.get (rank_scores (context_predictions o)) item (of_Z 0)) in *.
  simpl fadd. simpl fmul.
  assert (H1 : (0 <= w_u * su)%Q) by (apply Qmult_le_0_compat; assumption).
  assert (H2 : (0 <= w_c * sc)%Q) by (apply Qmult_le_0_compat; assumption).
  assert (H3 : (w_u * su <= w_u)%Q).
  { rewrite <- (Qmult_1_r w_u) at 2.
    rewrite !(Qmult_comm w_u). apply Qmult_le_compat_r; assumption. }
  assert (H4 : (w_c * sc <= w_c)%Q).
  { rewrite <- (Qmult_1_r w_c) at 2.
    rewrite !(Qmult_comm w_c). apply Qmult_le_compat_r; assumption. }
  split; [split; lra|].
  intros Hn. apply Qmult_le_0_compat; [lra | exact Hn].
Qed.

Lemma scores_are_bounded_witness :
  (combined_score 0.6 0.4 ["A"; "B"; "C"] ["B"; "D"; "A"] "A" <= 0.6 + 0.4)%Q.
Proof.
  assert (Hu : (0 <= 0.6)%Q) by (unfold Qle; simpl; lia).
  assert (Hc : (0 <= 0.4)%Q) by (unfold Qle; simpl; lia).
  exact (proj2 (proj1 (scores_are_bounded
                         (call (ensemble_module 0.1%Q)
                               ["A"; "B"; "C"] ["B"; "D"; "A"])
                         0.6%Q 0.4%Q "A" Hu Hc))).
Defined.

(** An item whose final score is strictly above every other one is returned
    first, whatever the iteration order of the universe (exact arithmetic). *)
Theorem strictly_best_item_is_first
    (O : SetOrder) (srt : Sorter) (o : Objects Q) (w_u w_c : Q)
    (user_id : string) (timestamp : Timestamp) (best : Item) :
  trained_with (self o) w_u w_c ->
  In best (user_predictions o) \/ In best (context_predictions o) ->
  (forall item,
      In item (user_predictions o) \/ In item (context_predictions o) ->
      item <> best ->
      (final_score o w_u w_c item < final_score o w_u w_c best)%Q) ->
  exists rest, fst (integrate O srt user_id timestamp o) = Ok (best :: rest).
Proof.
  intros Ht Hin Hbest.
  rewrite (integrate_sorted O srt user_id timestamp o w_u w_c Ht
             (Q_scores_ordered _ _ _)).
  set (key := final_score o w_u w_c).
  set (universe := set_union_iter O (user_predictions o) (context_predictions o)).
  destruct (descending_head string_dec fltb key
              (sorted_desc fltb key universe) best) as [rest Hrest].
  - apply sorted_desc_descending, Q_strict_weak.
  - eapply Permutation_in; [apply Permutation_sym, sorted_desc_perm|].
    now apply set_union_In.
  - intros y Hy Hne. apply Q_fltb_lt. apply Hbest; [|exact Hne].
    apply (set_union_In O).
    exact (Permutation_in _ (sorted_desc_perm fltb key universe) Hy).
  - exists rest. now rewrite Hrest.
Qed.

Lemma strictly_best_item_is_first_witness :
  exists rest,
    fst (integrate reverse_first_seen_order insertion_sorter "user1" 0%Z
           (call (ensemble_module 0.1%Q) ["A"; "B"; "C"] ["B"; "D"; "A"]))
    = Ok ("A" :: rest).
Proof.
  apply (strictly_best_item_is_first reverse_first_seen_order insertion_sorter
           (call (ensemble_module 0.1%Q) ["A"; "B"; "C"] ["B"; "D"; "A"])
           0.6%Q 0.4%Q "user1" 0%Z "A").
  - repeat split.
  - left. simpl. tauto.
  - intros item Hin Hne. simpl in Hin.
    assert (Hcases : item = "B" \/ item = "C" \/ item = "D").
    { destruct Hin as [[E|[E|[E|[]]]]|[E|[E|[E|[]]]]]; subst; try tauto;
        contradiction. }
    destruct Hcases as [-> | [-> | ->]]; vm_compute; reflexivity.
Defined.

(** ** [validate_config]: the order of the checks and what gets through *)

(** [utils/config.py] delimits its three docstrings with an apostrophe
    followed by three double quotes, which Python does not read as a string
    delimiter: the file as it stands is rejected by the parser, and with it
    the import at the head of [main.py].  The statements of
    [get_default_config] and [validate_config] are modelled as written, that
    is, as they run once the docstrings are delimited properly; the same
    holds of what [ICABARFramework.__init__] does with them. *)

Section ValidateFacts.
Context {F : Type} {AF : Arith F}.

Lemma contains_entry (config : list (string * pyval F)) (k : string) :
  contains config k = true <-> exists v, entry config k = Some v.
Proof.
  unfold contains. destruct (entry config k) as [v|].
  - split; eauto.
  - split; [discriminate | intros [v Hv]; discriminate].
Qed.

(** With the three sections present, the outcome up to the weights check. *)
Lemma validate_config_sections (config : list (string * pyval F)) :
  contains config "user_analytics" = true ->
  contains config "context_engine" = true ->
  contains config "integration" = true ->
  validate_config config
  = and_then (subscript (PyMap config) "user_analytics") (fun ua =>
    and_then (subscript ua "n_clusters") (fun n_clusters =>
    if negb (is_int n_clusters) || (int_value n_clusters <=? 0)%Z
    then Raise (ValueError msg_clusters)
    else
      and_then (subscript (PyMap config) "integration") (fun integ =>
      and_then (subscript integ "ensemble_weights") (fun weights =>
      match weights with
      | PyList ws =>
          if negb (List.length ws =? 3)%nat || negb (forallb is_float ws)
          then Raise (ValueError msg_shape)
          else
            if fgtb (fabs (fsub (sum ws) (of_Z 1))) (dec 1 1000000)
            then Raise (ValueError msg_sum)
            else Ok tt
      | _ => Raise (ValueError msg_shape)
      end)))).
Proof.
  intros Hua Hce Hin. unfold validate_config. rewrite Hua, Hce, Hin. reflexivity.
Qed.

End ValidateFacts.

Lemma validate_config_requires_the_three_sections_aux
      {F : Type} {AF : Arith F} (config : list (string * pyval F)) :
  contains config "user_analytics" = false \/
  contains config "context_engine" = false \/
  contains config "integration" = false ->
  validate_config config = Raise (ValueError msg_keys).
Proof.
  intros Hmiss. unfold validate_config.
  destruct (contains config "user_analytics"); simpl.
  - destruct (contains config "context_engine"); simpl.
    + destruct (contains config "integration"); simpl.
      * destruct Hmiss as [H|[H|H]]; discriminate H.
      * reflexivity.
    + reflexivity.
  - reflexivity.
Qed.

(** A configuration that lacks any of the three sections is refused with the
    [ValueError] naming the sections, whatever else it holds. *)
Theorem validate_config_requires_the_three_sections
    {F : Type} {AF : Arith F} (config : list (string * pyval F)) :
  contains config "user_analytics" = false \/
  contains config "context_engine" = false \/
  contains config "integration" = false ->
  validate_config config
  = Raise (ValueError
      "Configuration must contain 'user_analytics', 'context_engine', and 'integration' keys.").
Proof.
  intros Hmiss.
  now rewrite (validate_config_requires_the_three_sections_aux config Hmiss).
Qed.

Lemma validate_config_requires_the_three_sections_witness :
  validate_config (F:=float)
    [ ("user_analytics", PyMap [("n_clusters", PyInt 5)]);
      ("context_engine", PyMap []) ]
  = Raise (ValueError
      "Configuration must contain 'user_analytics', 'context_engine', and 'integration' keys.").
Proof.
  apply validate_config_requires_the_three_sections.
  right. right. reflexivity.
Defined.

(** With the sections present, an [n_clusters] that is not an [int] or is not
    positive is refused with the [ValueError] naming it, before the weights
    are looked at: the weights may be anything, or missing. *)
Theorem validate_config_checks_n_clusters_first
    {F : Type} {AF : Arith F} (config : list (string * pyval F))
    (ua n_clusters : pyval F) :
  contains config "user_analytics" = true ->
  contains config "context_engine" = true ->
  contains config "integration" = true ->
  entry config "user_analytics" = Some ua ->
  subscript ua "n_clusters" = Ok n_clusters ->
  is_int n_clusters = false \/ (int_value n_clusters <= 0)%Z ->
  validate_config config
  = Raise (ValueError "'n_clusters' must be a positive integer.").
Proof.
  intros Hua Hce Hin Hentry Hn Hbad.
  rewrite (validate_config_sections config Hua Hce Hin).
  unfold subscript at 1. rewrite Hentry. cbn [and_then]. rewrite Hn. cbn [and_then].
  destruct Hbad as [Hint|Hle].
  - rewrite Hint. reflexivity.
  - apply Z.leb_le in Hle. rewrite Hle, orb_true_r. reflexivity.
Qed.

Lemma validate_config_checks_n_clusters_first_witness :
  validate_config (F:=float)
    [ ("user_analytics", PyMap [("n_clusters", PyInt 0)]);
      ("context_engine", PyMap []);
      ("integration", PyMap [("ensemble_weights", PyList [PyFloat 0.5%float])]) ]
  = Raise (ValueError "'n_clusters' must be a positive integer.").
Proof.
  eapply validate_config_checks_n_clusters_first; try reflexivity.
  right. simpl. lia.
Defined.

(** Lookups inside the sections are not guarded.  With the three sections
    present: a [user_analytics] section without [n_clusters] raises
    [KeyError], not [ValueError]; so does, once [n_clusters] has passed, an
    [integration] section without [ensemble_weights]; and a section that is
    not a dict raises [TypeError]. *)
Theorem validate_config_lets_lookup_errors_escape
    {F : Type} {AF : Arith F} (config : list (string * pyval F)) :
  contains config "user_analytics" = true ->
  contains config "context_engine" = true ->
  contains config "integration" = true ->
  (forall d, entry config "user_analytics" = Some (PyMap d) ->
             entry d "n_clusters" = None ->
             validate_config config = Raise (KeyError "n_clusters")) /\
  (forall ua, entry config "user_analytics" = Some ua ->
              (forall d, ua <> PyMap d) ->
              exists msg, validate_config config = Raise (TypeError msg)) /\
  (forall ua n d,
      entry config "user_analytics" = Some ua ->
      subscript ua "n_clusters" = Ok n ->
      is_int n = true -> (0 < int_value n)%Z ->
      entry config "integration" = Some (PyMap d) ->
      entry d "ensemble_weights" = None ->
      validate_config config = Raise (KeyError "ensemble_weights")) /\
  (forall ua n integ,
      entry config "user_analytics" = Some ua ->
      subscript ua "n_clusters" = Ok n ->
      is_int n = true -> (0 < int_value n)%Z ->
      entry config "integration" = Some integ ->
      (forall d, integ <> PyMap d) ->
      exists msg, validate_config config = Raise (TypeError msg)).
Proof.
  intros Hua Hce Hin.
  rewrite (validate_config_sections config Hua Hce Hin).
  assert (Hpass : forall ua n,
             entry config "user_analytics" = Some ua ->
             subscript ua "n_clusters" = Ok n ->
             is_int n = true -> (0 < int_value n)%Z ->
             forall k : pyval F -> result unit,
               and_then (subscript (PyMap config) "user_analytics") (fun ua =>
               and_then (subscript ua "n_clusters") (fun n_clusters =>
               if negb (is_int n_clusters) || (int_value n_clusters <=? 0)%Z
               then Raise (ValueError msg_clusters)
               else and_then (subscript (PyMap config) "integration") k))
               = and_then (subscript (PyMap config) "integration") k).
  { intros ua n Hentry Hn Hint Hpos k.
    unfold subscript at 1. rewrite Hentry. cbn [and_then]. rewrite Hn.
    cbn [and_then]. rewrite Hint.
    assert (Hle : (int_value n <=? 0)%Z = false) by (apply Z.leb_gt; exact Hpos).
    rewrite Hle. reflexivity. }
  split; [|split; [|split]].
  - intros d Hentry Hnone. unfold subscript at 1. rewrite Hentry. cbn [and_then].
    unfold subscript at 1. rewrite Hnone. reflexivity.
  - intros ua Hentry Hnot. unfold subscript at 1. rewrite Hentry. cbn [and_then].
    destruct ua; try (eexists; reflexivity). exfalso. eapply Hnot. reflexivity.
  - intros ua n d Hentry Hn Hint Hpos Hi Hnone.
    rewrite (Hpass ua n Hentry Hn Hint Hpos).
    unfold subscript at 1. rewrite Hi. cbn [and_then].
    unfold subscript at 1. rewrite Hnone. reflexivity.
  - intros ua n integ Hentry Hn Hint Hpos Hi Hnot.
    rewrite (Hpass ua n Hentry Hn Hint Hpos).
    unfold subscript at 1. rewrite Hi. cbn [and_then].
    destruct integ; try (eexists; reflexivity). exfalso. eapply Hnot. reflexivity.
Qed.

Lemma validate_config_lets_lookup_errors_escape_witness :
  validate_config (F:=float)
    [ ("user_analytics", PyMap [("n_clusters", PyInt 5)]);
      ("context_engine", PyMap []);
      ("integration", PyMap [("novelty_factor", PyFloat 0.5%float)]) ]
  = Raise (KeyError "ensemble_weights").
Proof.
  eapply (validate_config_lets_lookup_errors_escape (F:=float)); reflexivity.
Defined.

Lemma three_floats {F : Type} (ws : list (pyval F)) :
  List.length ws = 3 -> forallb is_float ws = true ->
  exists a b c, ws = [PyFloat a; PyFloat b; PyFloat c].
Proof.
  destruct ws as [|[| | |a| | |] [|[| | |b| | |] [|[| | |c| | |] [|d ws]]]];
    simpl; try discriminate.
  intros _ _. now exists a, b, c.
Qed.

(** What [validate_config] lets through, in any arithmetic: it returns
    normally exactly for the configurations with the three sections, an
    [n_clusters] that is a positive [int], and [ensemble_weights] a list of
    exactly three floats whose sum, added from 0 left to right, is not more
    than 1e-6 away from 1.0. *)
Theorem validate_config_accepts_exactly
    {F : Type} {AF : Arith F} (config : list (string * pyval F)) :
  validate_config config = Ok tt
  <-> exists a b c,
        reaches_weights config (PyList [PyFloat a; PyFloat b; PyFloat c]) /\
        fgtb (fabs (fsub (fadd (fadd (fadd (of_Z 0) a) b) c) (of_Z 1)))
             (dec 1 1000000) = false.
Proof.
  split.
  - intros Hok.
    destruct (contains config "user_analytics") eqn:Hua;
      [|rewrite validate_config_requires_the_three_sections_aux in Hok by tauto;
        discriminate].
    destruct (contains config "context_engine") eqn:Hce;
      [|rewrite validate_config_requires_the_three_sections_aux in Hok by tauto;
        discriminate].
    destruct (contains config "integration") eqn:Hin;
      [|rewrite validate_config_requires_the_three_sections_aux in Hok by tauto;
        discriminate].
    rewrite (validate_config_sections config Hua Hce Hin) in Hok.
    apply contains_entry in Hua as [ua Hentry].
    apply contains_entry in Hin as [integ Hi].
    unfold subscript at 1 in Hok. rewrite Hentry in Hok. cbn [and_then] in Hok.
    destruct (subscript ua "n_clusters") as [n|e] eqn:Hn; [|discriminate].
    cbn [and_then] in Hok.
    destruct (is_int n) eqn:Hint; [|discriminate].
    destruct (int_value n <=? 0)%Z eqn:Hle; [discriminate|].
    simpl negb in Hok. simpl orb in Hok. cbv iota in Hok.
    unfold subscript at 1 in Hok. rewrite Hi in Hok. cbn [and_then] in Hok.
    destruct (subscript integ "ensemble_weights") as [w|e] eqn:Hw; [|discriminate].
    cbn [and_then] in Hok.
    destruct w as [| | | | |ws|]; try discriminate.
    destruct (List.length ws =? 3)%nat eqn:Hlen; [|discriminate].
    destruct (forallb is_float ws) eqn:Hfl; [|discriminate].
    simpl negb in Hok. simpl orb in Hok. cbv iota in Hok.
    apply Nat.eqb_eq in Hlen.
    destruct (three_floats ws Hlen Hfl) as (a & b & c & ->).
    exists a, b, c. split.
    + split; [apply contains_entry; eauto|]. split; [exact Hce|]. split.
      * exists ua, n. repeat split; trivial. now apply Z.leb_gt.
      * exists integ. split; assumption.
    + change (sum [PyFloat a; PyFloat b; PyFloat c])
        with (fadd (fadd (fadd (of_Z 0) a) b) c) in Hok.
      destruct (fgtb (fabs (fsub (fadd (fadd (fadd (of_Z 0) a) b) c) (of_Z 1)))
                     (dec 1 1000000)); [discriminate | reflexivity].
  - intros (a & b & c & Hreach & Hsum).
    rewrite (validate_config_weights config _ Hreach).
    simpl negb. simpl orb. cbv iota.
    change (sum [PyFloat a; PyFloat b; PyFloat c])
      with (fadd (fadd (fadd (of_Z 0) a) b) c).
    rewrite Hsum. reflexivity.
Qed.

(** The shape check covers everything that is not a list of exactly three
    floats (a list of ints such as [[1, 0, 0]], a longer or shorter list, a
    value that is no list), and it comes before the sum check. *)
Theorem validate_config_refuses_other_shapes
    {F : Type} {AF : Arith F} (config : list (string * pyval F))
    (weights : pyval F) :
  reaches_weights config weights ->
  (forall a b c, weights <> PyList [PyFloat a; PyFloat b; PyFloat c]) ->
  validate_config config
  = Raise (ValueError "'ensemble_weights' must be a list of three floats.").
Proof.
  intros Hreach Hshape. rewrite (validate_config_weights config weights Hreach).
  destruct weights as [| | | | |ws|]; try reflexivity.
  destruct (List.length ws =? 3)%nat eqn:Hlen; [|reflexivity].
  destruct (forallb is_float ws) eqn:Hfl; [|reflexivity].
  apply Nat.eqb_eq in Hlen.
  destruct (three_floats ws Hlen Hfl) as (a & b & c & ->).
  exfalso. apply (Hshape a b c). reflexivity.
Qed.

Lemma validate_config_refuses_other_shapes_witness :
  validate_config (F:=float)
    (default_with_weights (PyList [PyInt 1; PyInt 0; PyInt 0]))
  = Raise (ValueError "'ensemble_weights' must be a list of three floats.").
Proof.
  apply (validate_config_refuses_other_shapes
           (default_with_weights (PyList [PyInt 1; PyInt 0; PyInt 0]))
           (PyList [PyInt 1; PyInt 0; PyInt 0])).
  - apply default_reaches_weights.
  - intros a b c. discriminate.
Defined.

(** ** The framework: [ICABARFramework] *)

(** [l[:n]] for a Python int [n]: the first [n] elements, or, for a negative
    [n], all but the last [-n]. *)
Definition slice_to {A : Type} (n : Z) (l : list A) : list A :=
  if (0 <=? n)%Z
  then firstn (Z.to_nat n) l
  else firstn (List.length l - Z.to_nat (- n)) l.

(** [base.update(other)]: [base[k] = v] for each entry of [other], in order. *)
Definition update {V : Type} (base other : PyDict.t V) : PyDict.t V :=
  fold_left (fun d kv => PyDict.setitem d (fst kv) (snd kv)) other base.

Section Framework.
Context {F : Type} {AF : Arith F}.

(** The two predictors are pandas code; the framework only calls their
    [predict] methods, which read their own state and return a list of item
    ids or raise.  [UA], [CE]: the predictor objects; [Ctx]: the optional
    [context] argument handed through to the context engine. *)
Context {UA CE Ctx : Type}.
Context (ua_predict : UA -> string -> Z -> result (list Item)).
Context (ce_predict : CE -> string -> Timestamp -> Z -> Ctx -> result (list Item)).

(** The attributes of an [ICABARFramework] object; the three components are
    [None] until [initialize_components] has run. *)
Record Framework : Type := {
  fw_config : list (string * pyval F);
  fw_user_analytics : option UA;
  fw_context_engine : option CE;
  fw_integration_module : option (IntegrationModule F);
  fw_trained : bool
}.

(** The configuration [ICABARFramework.__init__] settles on: the defaults,
    updated key by key with a [config] that is neither [None] nor empty. *)
Definition merged_config (cfg : option (list (string * pyval F)))
  : list (string * pyval F) :=
  match cfg with
  | Some (kv :: rest) => update get_default_config (kv :: rest)
  | _ => get_default_config
  end.

(** [ICABARFramework.__init__(self, config=None)]. *)
Definition framework_init (cfg : option (list (string * pyval F)))
  : result Framework :=
  let base_config := merged_config cfg in
  and_then (validate_config base_config) (fun _ =>
  Ok {| fw_config := base_config;
        fw_user_analytics := None;
        fw_context_engine := None;
        fw_integration_module := None;
        fw_trained := false |}).

Definition set_integration_module (m : IntegrationModule F) (fw : Framework)
  : Framework :=
  {| fw_config := fw_config fw;
     fw_user_analytics := fw_user_analytics fw;
     fw_context_engine := fw_context_engine fw;
     fw_integration_module := Some m;
     fw_trained := fw_trained fw |}.

(** [ICABARFramework.predict(self, user_id, timestamp, num_recommendations,
    context)]: the outcome and the framework afterwards. *)
Definition framework_predict (O : SetOrder) (srt : Sorter) (fw : Framework)
           (user_id : string) (timestamp : Timestamp)
           (num_recommendations : Z) (context : Ctx)
  : result (list Item) * Framework :=
  if negb (fw_trained fw)
  then (Raise (RuntimeError "Framework must be trained before making predictions."), fw)
  else
    match fw_user_analytics fw with
    | None => (Raise (AttributeError "predict"), fw)
    | Some ua =>
        match ua_predict ua user_id num_recommendations with
        | Raise e => (Raise e, fw)
        | Ok user_predictions =>
            match fw_context_engine fw with
            | None => (Raise (AttributeError "predict"), fw)
            | Some ce =>
                match ce_predict ce user_id timestamp num_recommendations context with
                | Raise e => (Raise e, fw)
                | Ok context_predictions =>
                    match fw_integration_module fw with
                    | None => (Raise (AttributeError "integrate"), fw)
                    | Some m =>
                        match integrate O srt user_id timestamp
                                (call m user_predictions context_predictions) with
                        | (Ok final_recommendations, o) =>
                            (Ok (slice_to num_recommendations final_recommendations),
                             set_integration_module (self o) fw)
                        | (Raise e, o) =>
                            (Raise e, set_integration_module (self o) fw)
                        end
                    end
                end
            end
        end
    end.

End Framework.

Arguments Framework F UA CE : clear implicits.

(** *** Construction: the configuration is merged one level deep *)

Lemma entry_lookup {F : Type} (d : list (string * pyval F)) (k : string) :
  entry d k = PyDict.lookup d k.
Proof.
  induction d as [|[k' v] d IH]; simpl; [reflexivity|].
  now rewrite IH.
Qed.

Lemma lookup_absent {V : Type} (d : PyDict.t V) (k : Item) :
  ~ In k (PyDict.keys d) -> PyDict.lookup d k = None.
Proof.
  intros Hk. destruct (PyDict.lookup d k) as [v|] eqn:E; [|reflexivity].
  exfalso. apply Hk. apply lookup_In_keys. eauto.
Qed.

Lemma lookup_update {V : Type} (other : PyDict.t V) :
  forall (base : PyDict.t V) (k : Item),
    NoDup (PyDict.keys other) ->
    PyDict.lookup (update base other) k
    = match PyDict.lookup other k with
      | Some v => Some v
      | None => PyDict.lookup base k
      end.
Proof.
  induction other as [|[k0 v0] other IH]; intros base k Hnd; simpl.
  - reflexivity.
  - inversion Hnd as [|? ? Hk0 Hnd']; subst.
    unfold update in *. simpl. rewrite IH by exact Hnd'.
    rewrite lookup_setitem.
    destruct (String.eqb_spec k k0) as [->|_]; [|reflexivity].
    now rewrite (lookup_absent other k0 Hk0).
Qed.

(** [ICABARFramework(config)] merges one level deep.  Without a [config], or
    with an empty one, the configuration is [get_default_config()]; otherwise
    each top-level key of [config] replaces the default under that key
    wholesale and the other defaults stay.  A [config] that supplies an
    [integration] section therefore decides every key of that section: a
    default such as [novelty_factor] is there only if the section repeats it. *)
Theorem framework_config_is_shallow_merge
    {F : Type} {AF : Arith F} (cfg : list (string * pyval F)) :
  NoDup (PyDict.keys cfg) ->
  merged_config (F:=F) None = get_default_config /\
  merged_config (Some []) = get_default_config (F:=F) /\
  (forall k,
      entry (merged_config (Some cfg)) k
      = match entry cfg k with
        | Some v => Some v
        | None => entry get_default_config k
        end) /\
  (forall section k,
      entry cfg "integration" = Some section ->
      subscript (PyMap (merged_config (Some cfg))) "integration" = Ok section /\
      and_then (subscript (PyMap (merged_config (Some cfg))) "integration")
               (fun s => subscript s k)
      = subscript section k).
Proof.
  intros Hnd.
  assert (Hmerge : forall k,
             entry (merged_config (Some cfg)) k
             = match entry cfg k with
               | Some v => Some v
               | None => entry get_default_config k
               end).
  { intros k. destruct cfg as [|kv rest]; [reflexivity|].
    unfold merged_config. rewrite !entry_lookup.
    rewrite (lookup_update (kv :: rest) get_default_config k Hnd).
    rewrite <- !entry_lookup. reflexivity. }
  split; [reflexivity|]. split; [reflexivity|]. split; [exact Hmerge|].
  intros section k Hsec.
  assert (Hsub : subscript (PyMap (merged_config (Some cfg))) "integration"
                 = Ok section).
  { unfold subscript. now rewrite Hmerge, Hsec. }
  split; [exact Hsub|]. now rewrite Hsub.
Qed.

Lemma framework_config_is_shallow_merge_witness :
  and_then
    (subscript
       (PyMap (merged_config (F:=float)
                 (Some [("integration",
                         PyMap [("ensemble_weights",
                                 PyList [PyFloat 0.5%float; PyFloat 0.25%float;
                                         PyFloat 0.25%float])])])))
       "integration")
    (fun s => subscript s "novelty_factor")
  = Raise (KeyError "novelty_factor").
Proof.
  refine (eq_trans
            (proj2 (proj2 (proj2 (proj2
               (framework_config_is_shallow_merge (F:=float)
                  [("integration",
                    PyMap [("ensemble_weights",
                            PyList [PyFloat 0.5%float; PyFloat 0.25%float;
                                    PyFloat 0.25%float])])]
                  _)))
               _ "novelty_factor" eq_refl))
            eq_refl).
  repeat constructor. simpl. tauto.
Defined.

Lemma validate_config_missing_weights {F : Type} {AF : Arith F}
      (config : list (string * pyval F)) (ua n : pyval F)
      (d : list (string * pyval F)) :
  contains config "context_engine" = true ->
  entry config "user_analytics" = Some ua ->
  subscript ua "n_clusters" = Ok n ->
  is_int n = true -> (0 < int_value n)%Z ->
  entry config "integration" = Some (PyMap d) ->
  entry d "ensemble_weights" = None ->
  validate_config config = Raise (KeyError "ensemble_weights").
Proof.
  intros Hce Hentry Hn Hint Hpos Hi Hnone.
  rewrite validate_config_sections;
    [| apply contains_entry; eauto | exact Hce | apply contains_entry; eauto].
  unfold subscript at 1. rewrite Hentry. cbn [and_then]. rewrite Hn.
  cbn [and_then]. rewrite Hint.
  assert (Hle : (int_value n <=? 0)%Z = false) by (apply Z.leb_gt; exact Hpos).
  rewrite Hle. simpl negb. simpl orb. cbv iota.
  unfold subscript at 1. rewrite Hi. cbn [and_then].
  unfold subscript at 1. rewrite Hnone. reflexivity.
Qed.

(** A consequence of the shallow merge: a [config] that overrides part of the
    integration section without repeating [ensemble_weights] (and leaves the
    other two sections alone) makes the constructor raise [KeyError], since
    the default weights were replaced along with the section. *)
Theorem partial_integration_override_raises_KeyError
    {F : Type} {AF : Arith F} {UA CE : Type}
    (cfg section : list (string * pyval F)) :
  NoDup (PyDict.keys cfg) ->
  entry cfg "integration" = Some (PyMap section) ->
  entry section "ensemble_weights" = None ->
  entry cfg "user_analytics" = None ->
  entry cfg "context_engine" = None ->
  framework_init (UA:=UA) (CE:=CE) (Some cfg) = Raise (KeyError "ensemble_weights").
Proof.
  intros Hnd Hsec Hnone Hua Hce.
  assert (Hmerge : forall k,
             entry (merged_config (Some cfg)) k
             = match entry cfg k with
               | Some v => Some v
               | None => entry get_default_config k
               end).
  { intros k. destruct cfg as [|kv rest]; [reflexivity|].
    unfold merged_config. rewrite !entry_lookup.
    rewrite (lookup_update (kv :: rest) get_default_config k Hnd).
    rewrite <- !entry_lookup. reflexivity. }
  unfold framework_init. cbv zeta.
  rewrite (validate_config_missing_weights (merged_config (Some cfg))
             (PyMap [ ("n_clusters", PyInt 5);
                      ("temporal_window", PyInt 30);
                      ("min_interactions", PyInt 3) ])
             (PyInt 5) section).
  - reflexivity.
  - unfold contains. rewrite Hmerge, Hce. reflexivity.
  - rewrite Hmerge, Hua. reflexivity.
  - reflexivity.
  - reflexivity.
  - reflexivity.
  - rewrite Hmerge, Hsec. reflexivity.
  - exact Hnone.
Qed.

Lemma partial_integration_override_raises_KeyError_witness :
  framework_init (F:=float) (UA:=unit) (CE:=unit)
    (Some [("integration", PyMap [("novelty_factor", PyFloat 0.5%float)])])
  = Raise (KeyError "ensemble_weights").
Proof.
  apply (partial_integration_override_raises_KeyError (F:=float)
           [("integration", PyMap [("novelty_factor", PyFloat 0.5%float)])]
           [("novelty_factor", PyFloat 0.5%float)]).
  - repeat constructor. simpl. tauto.
  - reflexivity.
  - reflexivity.
  - reflexivity.
  - reflexivity.
Defined.

(** *** Prediction *)

Lemma slice_to_prefix {A : Type} (n : Z) (l : list A) :
  exists rest, l = slice_to n l ++ rest.
Proof.
  unfold slice_to. destruct (0 <=? n)%Z.
  - exists (skipn (Z.to_nat n) l). symmetry. apply firstn_skipn.
  - exists (skipn (List.length l - Z.to_nat (- n)) l). symmetry. apply firstn_skipn.
Qed.

Lemma slice_to_length {A : Type} (n : Z) (l : list A) :
  List.length (slice_to n l)
  = if (0 <=? n)%Z
    then Nat.min (Z.to_nat n) (List.length l)
    else List.length l - Z.to_nat (- n).
Proof.
  unfold slice_to. destruct (0 <=? n)%Z; rewrite length_firstn; lia.
Qed.

Lemma descending_app {A K : Type} (ltb : K -> K -> bool) (key : A -> K)
      (l1 l2 : list A) :
  descending ltb key (l1 ++ l2) ->
  forall x y, In x l1 -> In y l2 -> ltb (key x) (key y) = false.
Proof.
  unfold descending. induction l1 as [|a l1 IH]; simpl; intros Hs x y Hx Hy.
  - destruct Hx.
  - inversion Hs as [|? ? Hs' Ha]; subst. destruct Hx as [->|Hx].
    + rewrite Forall_forall in Ha. apply Ha. apply in_or_app. now right.
    + now apply IH.
Qed.

Section PredictFacts.
Context {F : Type} {AF : Arith F} {UA CE Ctx : Type}.
Context (ua_predict : UA -> string -> Z -> result (list Item)).
Context (ce_predict : CE -> string -> Timestamp -> Z -> Ctx -> result (list Item)).

Lemma framework_predict_untrained (O : SetOrder) (srt : Sorter) (fw : Framework F UA CE)
      user_id timestamp num context :
  fw_trained fw = false ->
  framework_predict ua_predict ce_predict O srt fw user_id timestamp num context
  = (Raise (RuntimeError "Framework must be trained before making predictions."), fw).
Proof.
  intros Hflag. unfold framework_predict. rewrite Hflag. reflexivity.
Qed.

Lemma framework_predict_run (O : SetOrder) (srt : Sorter) (fw : Framework F UA CE)
      (ua : UA) (ce : CE) (m : IntegrationModule F) (w_u w_c : F)
      (ups cps : list Item) user_id timestamp num context :
  fw_trained fw = true ->
  fw_user_analytics fw = Some ua ->
  fw_context_engine fw = Some ce ->
  fw_integration_module fw = Some m ->
  trained_with m w_u w_c ->
  ua_predict ua user_id num = Ok ups ->
  ce_predict ce user_id timestamp num context = Ok cps ->
  exists ranked,
    integrate O srt user_id timestamp (call m ups cps) = (Ok ranked, call m ups cps) /\
    Permutation ranked (set_union_iter O ups cps) /\
    framework_predict ua_predict ce_predict O srt fw user_id timestamp num context
    = (Ok (slice_to num ranked), fw).
Proof.
  intros Hflag Hua Hce Hm Ht Hups Hcps.
  destruct (integrate_perm O srt user_id timestamp (call m ups cps) w_u w_c Ht)
    as (ranked & Hr & Hperm).
  exists ranked. split; [exact Hr|]. split; [exact Hperm|].
  unfold framework_predict. rewrite Hflag, Hua, Hups, Hce, Hcps, Hm. simpl negb.
  cbv iota. rewrite Hr. simpl.
  f_equal. destruct fw; simpl in *. unfold set_integration_module. simpl.
  now rewrite Hm.
Qed.

(** The same where the final scores are ordered: the prefix of the stable
    descending sort. *)
Lemma framework_predict_sorted (O : SetOrder) (srt : Sorter) (fw : Framework F UA CE)
      (ua : UA) (ce : CE) (m : IntegrationModule F) (w_u w_c : F)
      (ups cps : list Item) user_id timestamp num context :
  fw_trained fw = true ->
  fw_user_analytics fw = Some ua ->
  fw_context_engine fw = Some ce ->
  fw_integration_module fw = Some m ->
  trained_with m w_u w_c ->
  ua_predict ua user_id num = Ok ups ->
  ce_predict ce user_id timestamp num context = Ok cps ->
  scores_ordered (call m ups cps) w_u w_c ->
  framework_predict ua_predict ce_predict O srt fw user_id timestamp num context
  = (Ok (slice_to num
           (sorted_desc fltb (final_score (call m ups cps) w_u w_c)
              (set_union_iter O ups cps))),
     fw).
Proof.
  intros Hflag Hua Hce Hm Ht Hups Hcps Hord.
  destruct (framework_predict_run O srt fw ua ce m w_u w_c ups cps
              user_id timestamp num context Hflag Hua Hce Hm Ht Hups Hcps)
    as (ranked & Hr & _ & Hrun).
  pose proof (integrate_sorted O srt user_id timestamp (call m ups cps) w_u w_c
                Ht Hord) as Es.
  rewrite Hr in Es. simpl in Es. injection Es as ->. exact Hrun.
Qed.

End PredictFacts.

(** A framework as its constructor leaves it cannot predict: whatever the
    accepted configuration, [predict] raises the framework's own
    [RuntimeError] and calls nothing. *)
Theorem fresh_framework_does_not_predict
    {F : Type} {AF : Arith F} {UA CE Ctx : Type}
    (ua_predict : UA -> string -> Z -> result (list Item))
    (ce_predict : CE -> string -> Timestamp -> Z -> Ctx -> result (list Item))
    (O : SetOrder) (srt : Sorter) (cfg : option (list (string * pyval F))) (fw : Framework F UA CE)
    (user_id : string) (timestamp : Timestamp) (num : Z) (context : Ctx) :
  framework_init cfg = Ok fw ->
  framework_predict ua_predict ce_predict O srt fw user_id timestamp num context
  = (Raise (RuntimeError "Framework must be trained before making predictions."), fw).
Proof.
  intros Hinit. apply framework_predict_untrained.
  unfold framework_init in Hinit. cbv zeta in Hinit.
  destruct (validate_config (merged_config cfg)) as [[]|e];
    simpl in Hinit; [|discriminate].
  injection Hinit as <-. reflexivity.
Qed.

Lemma fresh_framework_does_not_predict_witness :
  exists fw : Framework float unit unit,
    framework_init None = Ok fw /\
    framework_predict (fun _ _ _ => Ok ["A"]) (fun _ _ _ _ (_ : unit) => Ok ["B"])
      first_seen_order insertion_sorter fw "user1" 0%Z 10%Z tt
    = (Raise (RuntimeError "Framework must be trained before making predictions."),
       fw).
Proof.
  eexists. split.
  - vm_compute. reflexivity.
  - apply (fresh_framework_does_not_predict (F:=float) _ _ first_seen_order insertion_sorter None).
    vm_compute. reflexivity.
Defined.

(** A trained framework holding the module of the weighted-ensemble test; its
    predictors are what [predict] is given to call. *)
Definition trained_framework : Framework float unit unit :=
  {| fw_config := get_default_config;
     fw_user_analytics := Some tt;
     fw_context_engine := Some tt;
     fw_integration_module := Some tested_module;
     fw_trained := true |}.

(** When both predictors return, a trained framework returns a prefix of the
    integration ranking, in any arithmetic: the first [num_recommendations]
    items for [num_recommendations >= 0], all but the last
    [-num_recommendations] otherwise.  The items are distinct, each comes from
    one of the two predictor lists, and the framework and its integration
    module are unchanged.  The two predictors are each asked for
    [num_recommendations] items, so the ranking can hold more than are
    returned. *)
Theorem predict_returns_prefix_of_ranking
    {F : Type} {AF : Arith F} {UA CE Ctx : Type}
    (ua_predict : UA -> string -> Z -> result (list Item))
    (ce_predict : CE -> string -> Timestamp -> Z -> Ctx -> result (list Item))
    (O : SetOrder) (srt : Sorter) (fw : Framework F UA CE)
    (ua : UA) (ce : CE) (m : IntegrationModule F) (w_u w_c : F)
    (ups cps : list Item)
    (user_id : string) (timestamp : Timestamp) (num : Z) (context : Ctx) :
  fw_trained fw = true ->
  fw_user_analytics fw = Some ua ->
  fw_context_engine fw = Some ce ->
  fw_integration_module fw = Some m ->
  trained_with m w_u w_c ->
  ua_predict ua user_id num = Ok ups ->
  ce_predict ce user_id timestamp num context = Ok cps ->
  exists ranked returned dropped,
    fst (integrate O srt user_id timestamp (call m ups cps)) = Ok ranked /\
    framework_predict ua_predict ce_predict O srt fw user_id timestamp num context
    = (Ok returned, fw) /\
    ranked = returned ++ dropped /\
    NoDup returned /\
    (forall item, In item returned -> In item ups \/ In item cps) /\
    List.length returned
    = (if (0 <=? num)%Z
       then Nat.min (Z.to_nat num) (List.length (nodup string_dec (ups ++ cps)))
       else List.length (nodup string_dec (ups ++ cps)) - Z.to_nat (- num)).
Proof.
  intros Hflag Hua Hce Hm Ht Hups Hcps.
  destruct (framework_predict_run ua_predict ce_predict O srt fw ua ce m w_u w_c
              ups cps user_id timestamp num context Hflag Hua Hce Hm Ht Hups Hcps)
    as (ranked & Hr & Hperm & Hrun).
  assert (Hnd : NoDup ranked).
  { eapply Permutation_NoDup; [apply Permutation_sym, Hperm|].
    apply set_union_NoDup. }
  assert (Hlen : List.length ranked
                 = List.length (nodup string_dec (ups ++ cps))).
  { rewrite (Permutation_length Hperm). apply Permutation_length.
    apply NoDup_Permutation.
    - apply set_union_NoDup.
    - apply NoDup_nodup.
    - intros x. rewrite set_union_In, nodup_In, in_app_iff. reflexivity. }
  destruct (slice_to_prefix num ranked) as [dropped Hsplit].
  exists ranked, (slice_to num ranked), dropped.
  split; [now rewrite Hr|].
  split; [exact Hrun|].
  split; [exact Hsplit|]. split; [|split].
  - rewrite Hsplit in Hnd. eapply NoDup_app_remove_r, Hnd.
  - intros item Hin. apply (set_union_In O).
    eapply Permutation_in; [exact Hperm|].
    rewrite Hsplit. apply in_or_app. now left.
  - rewrite slice_to_length, Hlen. reflexivity.
Qed.

Lemma predict_returns_prefix_of_ranking_witness :
  framework_predict
    (fun _ _ _ => Ok ["A"; "B"; "C"]) (fun _ _ _ _ (_ : unit) => Ok ["B"; "D"; "A"])
    first_seen_order insertion_sorter trained_framework "user1" 0%Z 3%Z tt
  = (Ok ["A"; "B"; "D"], trained_framework).
Proof.
  destruct (predict_returns_prefix_of_ranking
              (fun _ _ _ => Ok ["A"; "B"; "C"])
              (fun _ _ _ _ (_ : unit) => Ok ["B"; "D"; "A"])
              first_seen_order insertion_sorter trained_framework tt tt tested_module
              0.6%float 0.4%float ["A"; "B"; "C"] ["B"; "D"; "A"]
              "user1" 0%Z 3%Z tt
              eq_refl eq_refl eq_refl eq_refl tested_module_trained
              eq_refl eq_refl)
    as (ranked & returned & dropped & _ & Hrun & _).
  rewrite Hrun. vm_compute in Hrun. injection Hrun as ->. reflexivity.
Defined.

(** What is cut off is never better than what is returned (exact
    arithmetic): no dropped item has a final score strictly above that of a
    returned item. *)
Theorem predict_keeps_the_highest_scores
    {UA CE Ctx : Type}
    (ua_predict : UA -> string -> Z -> result (list Item))
    (ce_predict : CE -> string -> Timestamp -> Z -> Ctx -> result (list Item))
    (O : SetOrder) (srt : Sorter) (fw : Framework Q UA CE)
    (ua : UA) (ce : CE) (m : IntegrationModule Q) (w_u w_c : Q)
    (ups cps : list Item)
    (user_id : string) (timestamp : Timestamp) (num : Z) (context : Ctx) :
  fw_trained fw = true ->
  fw_user_analytics fw = Some ua ->
  fw_context_engine fw = Some ce ->
  fw_integration_module fw = Some m ->
  trained_with m w_u w_c ->
  ua_predict ua user_id num = Ok ups ->
  ce_predict ce user_id timestamp num context = Ok cps ->
  exists returned,
    fst (framework_predict ua_predict ce_predict O srt fw user_id timestamp num context)
    = Ok returned /\
    forall kept cut,
      In kept returned ->
      In cut ups \/ In cut cps ->
      ~ In cut returned ->
      (final_score (call m ups cps) w_u w_c cut
       <= final_score (call m ups cps) w_u w_c kept)%Q.
Proof.
  intros Hflag Hua Hce Hm Ht Hups Hcps.
  set (key := final_score (call m ups cps) w_u w_c).
  set (ranked := sorted_desc fltb key (set_union_iter O ups cps)).
  exists (slice_to num ranked). split.
  { rewrite (framework_predict_sorted ua_predict ce_predict O srt fw ua ce m w_u w_c
               ups cps user_id timestamp num context); trivial.
    apply Q_scores_ordered. }
  intros kept cut Hkept Hcut Hnot.
  destruct (slice_to_prefix num ranked) as [dropped Hsplit].
  assert (Hdesc : descending fltb key (slice_to num ranked ++ dropped)).
  { rewrite <- Hsplit. apply sorted_desc_descending, Q_strict_weak. }
  assert (Hin : In cut dropped).
  { assert (Hr : In cut ranked).
    { eapply Permutation_in; [apply Permutation_sym, sorted_desc_perm|].
      now apply set_union_In. }
    rewrite Hsplit in Hr. apply in_app_or in Hr. tauto. }
  apply Q_fltb_ge. apply (descending_app fltb key _ _ Hdesc kept cut Hkept Hin).
Qed.

(** A trained framework in exact arithmetic. *)
Definition exact_trained_framework : Framework Q unit unit :=
  {| fw_config := get_default_config;
     fw_user_analytics := Some tt;
     fw_context_engine := Some tt;
     fw_integration_module := Some (ensemble_module 0.1%Q);
     fw_trained := true |}.

Lemma predict_keeps_the_highest_scores_witness :
  exists returned,
    fst (framework_predict
           (fun _ _ _ => Ok ["A"; "B"; "C"])
           (fun _ _ _ _ (_ : unit) => Ok ["B"; "D"; "A"])
           first_seen_order insertion_sorter exact_trained_framework "user1" 0%Z 2%Z tt)
    = Ok returned /\
    forall kept, In kept returned ->
      (final_score (call (ensemble_module 0.1%Q) ["A"; "B"; "C"] ["B"; "D"; "A"])
         0.6%Q 0.4%Q "D"
       <= final_score (call (ensemble_module 0.1%Q) ["A"; "B"; "C"] ["B"; "D"; "A"])
            0.6%Q 0.4%Q kept)%Q.
Proof.
  destruct (predict_keeps_the_highest_scores
              (fun _ _ _ => Ok ["A"; "B"; "C"])
              (fun _ _ _ _ (_ : unit) => Ok ["B"; "D"; "A"])
              first_seen_order insertion_sorter exact_trained_framework tt tt
              (ensemble_module 0.1%Q) 0.6%Q 0.4%Q
              ["A"; "B"; "C"] ["B"; "D"; "A"] "user1" 0%Z 2%Z tt
              eq_refl eq_refl eq_refl eq_refl
              ltac:(repeat split) eq_refl eq_refl)
    as (returned & Hrun & Hkeep).
  exists returned. split; [exact Hrun|].
  intros kept Hkept. apply Hkeep; [exact Hkept | right; simpl; tauto |].
  vm_compute in Hrun. injection Hrun as <-.
  simpl. intros [E|[E|[]]]; discriminate E.
Defined.

(** ** The evaluation metrics applied to predictions
    ([scripts/research_validation.py]) *)

(** [item in l]. *)
Definition mem (item : Item) (l : list Item) : bool :=
  existsb (String.eqb item) l.

(** [len(set(l))]. *)
Definition distinct_count (l : list Item) : nat :=
  List.length (nodup string_dec l).

(** [len(set(a) & set(b))]. *)
Definition common_count (a b : list Item) : nat :=
  distinct_count (filter (fun item => mem item b) a).

Section Metrics.
Context {F : Type} {AF : Arith F}.

(** [calculate_precision_recall(recommendations, actual_items, k)]. *)
Definition calculate_precision_recall
           (recommendations actual_items : list Item) (k : Z) : F * F :=
  match actual_items with
  | [] => (of_Z 0, of_Z 0)
  | _ :: _ =>
      let relevant_recommended :=
        common_count (slice_to k recommendations) actual_items in
      let precision :=
        if (0 <? k)%Z
        then fdiv (of_Z (Z.of_nat relevant_recommended)) (of_Z k)
        else of_Z 0 in
      let recall :=
        match actual_items with
        | [] => of_Z 0
        | _ :: _ =>
            fdiv (of_Z (Z.of_nat relevant_recommended))
                 (of_Z (Z.of_nat (List.length actual_items)))
        end in
      (precision, recall)
  end.

(** [calculate_diversity(recommendations, item_features)]; [item_features]
    is not used. *)
Definition calculate_diversity {T : Type}
           (recommendations : list Item) (item_features : option T) : F :=
  if (List.length recommendations <? 2)%nat
  then of_Z 0
  else fdiv (of_Z (Z.of_nat (distinct_count recommendations)))
            (of_Z (Z.of_nat (List.length recommendations))).

(** [calculate_novelty(recommendations, popular_items, top_n)]. *)
Definition calculate_novelty
           (recommendations popular_items : list Item) (top_n : Z) : F :=
  match recommendations with
  | [] => of_Z 0
  | _ :: _ =>
      let novel_items :=
        filter (fun item => negb (mem item (slice_to top_n popular_items)))
               recommendations in
      fdiv (of_Z (Z.of_nat (List.length novel_items)))
           (of_Z (Z.of_nat (List.length recommendations)))
  end.

End Metrics.

Lemma mem_In (item : Item) (l : list Item) : mem item l = true <-> In item l.
Proof.
  unfold mem. rewrite existsb_exists. split.
  - intros (y & Hy & E). apply String.eqb_eq in E. now subst.
  - intros Hin. exists item. split; [exact Hin | apply String.eqb_refl].
Qed.

Lemma distinct_count_le (l : list Item) : distinct_count l <= List.length l.
Proof.
  unfold distinct_count. induction l as [|x l IH]; simpl; [lia|].
  destruct (in_dec string_dec x l); simpl; lia.
Qed.

Lemma distinct_count_full (l : list Item) :
  distinct_count l = List.length l <-> NoDup l.
Proof.
  unfold distinct_count. split.
  - induction l as [|x l IH]; simpl; [constructor|].
    pose proof (distinct_count_le l) as Hle. unfold distinct_count in Hle.
    destruct (in_dec string_dec x l) as [Hin|Hnin]; simpl; intros Hlen; [lia|].
    constructor; [exact Hnin | apply IH; lia].
  - intros Hnd. now rewrite nodup_fixed_point.
Qed.

(** A count over a larger positive count, as a rational. *)
Lemma ratio_bounds (a b : Z) :
  (0 <= a <= b)%Z -> (0 < b)%Z ->
  (0 <= inject_Z a / inject_Z b /\ inject_Z a / inject_Z b <= 1)%Q.
Proof.
  intros [Ha Hab] Hb.
  assert (Hb' : (0 < inject_Z b)%Q).
  { change (inject_Z 0 < inject_Z b)%Q. rewrite <- Zlt_Qlt. exact Hb. }
  assert (Ha' : (0 <= inject_Z a)%Q).
  { change (inject_Z 0 <= inject_Z a)%Q. rewrite <- Zle_Qle. exact Ha. }
  assert (Hab' : (inject_Z a <= inject_Z b)%Q) by (rewrite <- Zle_Qle; exact Hab).
  split.
  - apply Qle_shift_div_l; [exact Hb' | rewrite Qmult_0_l; exact Ha'].
  - apply Qle_shift_div_r; [exact Hb' | rewrite Qmult_1_l; exact Hab'].
Qed.

Lemma ratio_one (a b : Z) :
  (0 < b)%Z -> ((inject_Z a / inject_Z b == 1)%Q <-> a = b).
Proof.
  intros Hb.
  assert (Hb' : ~ (inject_Z b == 0)%Q).
  { intros E. change (inject_Z b == inject_Z 0)%Q in E.
    apply (proj1 (inject_Z_injective b 0)) in E. lia. }
  split.
  - intros E. apply (proj1 (inject_Z_injective a b)).
    rewrite <- (Qmult_1_l (inject_Z b)), <- E. field. exact Hb'.
  - intros ->. field. exact Hb'.
Qed.

Lemma ratio_zero (a b : Z) :
  (0 < b)%Z -> ((inject_Z a / inject_Z b == 0)%Q <-> a = 0%Z).
Proof.
  intros Hb.
  assert (Hb' : ~ (inject_Z b == 0)%Q).
  { intros E. change (inject_Z b == inject_Z 0)%Q in E.
    apply (proj1 (inject_Z_injective b 0)) in E. lia. }
  split.
  - intros E. apply (proj1 (inject_Z_injective a 0)).
    change (inject_Z 0) with 0%Q.
    rewrite <- (Qmult_0_l (inject_Z b)), <- E. field. exact Hb'.
  - intros ->. field. exact Hb'.
Qed.

Lemma common_count_le_l (a b : list Item) : common_count a b <= List.length a.
Proof.
  unfold common_count.
  eapply Nat.le_trans; [apply distinct_count_le | apply filter_length_le].
Qed.

Lemma common_count_le_r (a b : list Item) : common_count a b <= List.length b.
Proof.
  unfold common_count, distinct_count. apply NoDup_incl_length.
  - apply NoDup_nodup.
  - intros x Hx. apply nodup_In, filter_In in Hx as [_ Hx]. now apply mem_In.
Qed.

(** Precision and recall are fractions between 0 and 1 for every input
    (exact arithmetic): the hits are counted as a set, so they number at most
    [k] and at most [len(actual_items)].  Both are 0 when there are no actual
    items, and precision is 0 when [k] is not positive. *)
Theorem precision_and_recall_are_fractions
    (recommendations actual_items : list Item) (k : Z) :
  let precision := fst (calculate_precision_recall (F:=Q) recommendations actual_items k) in
  let recall := snd (calculate_precision_recall (F:=Q) recommendations actual_items k) in
  (0 <= precision /\ precision <= 1)%Q /\
  (0 <= recall /\ recall <= 1)%Q /\
  (actual_items = [] -> precision = 0%Q /\ recall = 0%Q) /\
  ((k <= 0)%Z -> precision = 0%Q).
Proof.
  cbv zeta. unfold calculate_precision_recall.
  destruct actual_items as [|a0 actual]; simpl fst; simpl snd.
  - repeat split; try discriminate.
  - set (actual_items := a0 :: actual).
    set (hits := common_count (slice_to k recommendations) actual_items).
    assert (Hk : (0 < k)%Z -> (Z.of_nat hits <= k)%Z).
    { intros Hpos. pose proof (common_count_le_l (slice_to k recommendations)
                                 actual_items) as Hle.
      fold hits in Hle. rewrite slice_to_length in Hle.
      assert (H0 : (0 <=? k)%Z = true) by (apply Z.leb_le; lia).
      rewrite H0 in Hle. lia. }
    assert (Hr : hits <= List.length actual_items) by apply common_count_le_r.
    split; [|split; [|split]].
    + destruct (0 <? k)%Z eqn:Hpos.
      * apply Z.ltb_lt in Hpos.
        apply (ratio_bounds (Z.of_nat hits) k); [split; [lia | auto] | exact Hpos].
      * split; discriminate.
    + apply (ratio_bounds (Z.of_nat hits) (Z.of_nat (List.length actual_items))).
      * lia.
      * simpl. lia.
    + discriminate.
    + intros Hle. destruct (0 <? k)%Z eqn:Hpos; [|reflexivity].
      apply Z.ltb_lt in Hpos. lia.
Qed.

(** The diversity metric, in exact arithmetic: 0 for fewer than two
    recommendations, otherwise a fraction in [0, 1] that is 1 exactly when
    the recommendations are pairwise distinct. *)
Theorem diversity_is_one_iff_distinct
    {T : Type} (recommendations : list Item) (item_features : option T) :
  let diversity := calculate_diversity (F:=Q) recommendations item_features in
  (0 <= diversity /\ diversity <= 1)%Q /\
  (List.length recommendations < 2 -> diversity = 0%Q) /\
  (2 <= List.length recommendations ->
   ((diversity == 1)%Q <-> NoDup recommendations)).
Proof.
  cbv zeta. unfold calculate_diversity.
  destruct (List.length recommendations <? 2)%nat eqn:Hlen.
  - apply Nat.ltb_lt in Hlen. split; [split; discriminate|].
    split; [reflexivity | lia].
  - apply Nat.ltb_ge in Hlen.
    pose proof (distinct_count_le recommendations) as Hle.
    split; [|split].
    + apply ratio_bounds; lia.
    + lia.
    + intros _. simpl fdiv. simpl of_Z.
      rewrite ratio_one by lia. rewrite Nat2Z.inj_iff.
      apply distinct_count_full.
Qed.

(** On what the framework predicts the diversity metric carries no
    information (exact arithmetic): predictions never repeat an item, so the
    metric is 1 whenever at least two items are returned and 0 otherwise. *)
Theorem diversity_of_predictions_is_degenerate
    {UA CE Ctx T : Type}
    (ua_predict : UA -> string -> Z -> result (list Item))
    (ce_predict : CE -> string -> Timestamp -> Z -> Ctx -> result (list Item))
    (O : SetOrder) (srt : Sorter) (fw : Framework Q UA CE)
    (ua : UA) (ce : CE) (m : IntegrationModule Q) (w_u w_c : Q)
    (ups cps : list Item)
    (user_id : string) (timestamp : Timestamp) (num : Z) (context : Ctx)
    (item_features : option T) :
  fw_trained fw = true ->
  fw_user_analytics fw = Some ua ->
  fw_context_engine fw = Some ce ->
  fw_integration_module fw = Some m ->
  trained_with m w_u w_c ->
  ua_predict ua user_id num = Ok ups ->
  ce_predict ce user_id timestamp num context = Ok cps ->
  exists returned,
    fst (framework_predict ua_predict ce_predict O srt fw user_id timestamp num context)
    = Ok returned /\
    (List.length returned < 2 ->
     calculate_diversity (F:=Q) returned item_features = 0%Q) /\
    (2 <= List.length returned ->
     (calculate_diversity (F:=Q) returned item_features == 1)%Q).
Proof.
  intros Hflag Hua Hce Hm Ht Hups Hcps.
  set (ranked := sorted_desc fltb (final_score (call m ups cps) w_u w_c)
                   (set_union_iter O ups cps)).
  exists (slice_to num ranked). split.
  { rewrite (framework_predict_sorted ua_predict ce_predict O srt fw ua ce m w_u w_c
               ups cps user_id timestamp num context); trivial.
    apply Q_scores_ordered. }
  assert (Hnd : NoDup (slice_to num ranked)).
  { destruct (slice_to_prefix num ranked) as [dropped Hsplit].
    assert (Hr : NoDup ranked).
    { eapply Permutation_NoDup; [apply Permutation_sym, sorted_desc_perm|].
      apply set_union_NoDup. }
    rewrite Hsplit in Hr. eapply NoDup_app_remove_r, Hr. }
  unfold calculate_diversity. split.
  - intros Hlt. apply Nat.ltb_lt in Hlt. now rewrite Hlt.
  - intros Hge. pose proof Hge as Hge'. apply Nat.ltb_ge in Hge'. rewrite Hge'.
    simpl fdiv. simpl of_Z. rewrite ratio_one by lia.
    rewrite Nat2Z.inj_iff. now apply distinct_count_full.
Qed.

Lemma diversity_of_predictions_is_degenerate_witness :
  exists returned,
    fst (framework_predict
           (fun _ _ _ => Ok ["A"; "B"; "C"])
           (fun _ _ _ _ (_ : unit) => Ok ["B"; "D"; "A"])
           first_seen_order insertion_sorter exact_trained_framework "user1" 0%Z 3%Z tt)
    = Ok returned /\
    (calculate_diversity (F:=Q) returned (@None unit) == 1)%Q.
Proof.
  destruct (diversity_of_predictions_is_degenerate (T:=unit)
              (fun _ _ _ => Ok ["A"; "B"; "C"])
              (fun _ _ _ _ (_ : unit) => Ok ["B"; "D"; "A"])
              first_seen_order insertion_sorter exact_trained_framework tt tt
              (ensemble_module 0.1%Q) 0.6%Q 0.4%Q
              ["A"; "B"; "C"] ["B"; "D"; "A"] "user1" 0%Z 3%Z tt None
              eq_refl eq_refl eq_refl eq_refl
              ltac:(repeat split) eq_refl eq_refl)
    as (returned & Hrun & _ & Hone).
  exists returned. split; [exact Hrun|]. apply Hone.
  vm_compute in Hrun. injection Hrun as <-. simpl. lia.
Defined.

(** The novelty metric, in exact arithmetic: a fraction in [0, 1], counting
    repeated recommendations each time; it is 0 exactly when every
    recommendation is among the first [top_n] popular items (or there is no
    recommendation). *)
Theorem novelty_is_a_fraction
    (recommendations popular_items : list Item) (top_n : Z) :
  let novelty := calculate_novelty (F:=Q) recommendations popular_items top_n in
  (0 <= novelty /\ novelty <= 1)%Q /\
  ((novelty == 0)%Q
   <-> forall item, In item recommendations ->
                    In item (slice_to top_n popular_items)).
Proof.
  cbv zeta. unfold calculate_novelty.
  destruct recommendations as [|r0 recs].
  - split; [split; discriminate|]. split; [intros _ item [] | reflexivity].
  - set (recommendations := r0 :: recs).
    set (novel := filter (fun item => negb (mem item (slice_to top_n popular_items)))
                         recommendations).
    assert (Hle : List.length novel <= List.length recommendations)
      by apply filter_length_le.
    assert (Hpos : (0 < Z.of_nat (List.length recommendations))%Z) by (simpl; lia).
    clearbody recommendations.
    split.
    + apply ratio_bounds; lia.
    + simpl fdiv. simpl of_Z. rewrite (ratio_zero _ _ Hpos).
      split.
      * intros Hz item Hin.
        destruct (mem item (slice_to top_n popular_items)) eqn:Hm;
          [now apply mem_In|].
        assert (Hnovel : In item novel).
        { apply filter_In. split; [exact Hin | now rewrite Hm]. }
        destruct novel; [destruct Hnovel | simpl in Hz; lia].
      * intros Hall.
        destruct novel as [|x novel'] eqn:E; [reflexivity|].
        assert (Hx : In x novel) by (rewrite E; now left).
        apply filter_In in Hx as [Hin Hm].
        apply Hall, mem_In in Hin. rewrite Hin in Hm. discriminate.
Qed.
